(** * Worker of the cloud code execution engine ([src/worker/executor.py])

    A shallow embedding of the queue worker: job validation, sandboxed
    execution, the result writer with its bounded retry, the per-message
    pipeline and the polling loop with its circuit breaker.

    Python values are embedded as a small universe of JSON-like values;
    everything the worker does to the outside world (DynamoDB puts, SQS
    deletes, [time.sleep], [subprocess.run]) is recorded in an explicit
    world state, and everything the outside world answers is read from an
    environment record. *)

From Stdlib Require Import ZArith QArith String Ascii List Lia.
From stdpp Require Import base option list gmap strings pretty.

Local Open Scope Z_scope.
Local Open Scope list_scope.

Set Warnings "-register-all".

(** ** Python values *)

(** A Python [str] is a sequence of Unicode code points. *)
Definition pystr := list N.

(** An ASCII literal of the source, as a Python [str]. *)
Definition lit (s : string) : pystr :=
  map N_of_ascii (list_ascii_of_string s).



(** A Python [float]: a finite value (every double is a rational), an
    infinity or a NaN; [json.loads] produces all three. *)
Inductive pyfloat :=
| FFin (q : Q)
| FInf (negative : bool)
| FNaN.

(** The values for which [isinstance(v, (int, float))] holds; [bool] is a
    subclass of [int]. *)
Inductive pynum :=
| NBool (b : bool)
| NInt (z : Z)
| NFloat (f : pyfloat).

Inductive pyval :=
| PNone
| PNum (n : pynum)
| PStr (s : pystr)
| PList (l : list pyval)
| PDict (d : gmap pystr pyval).

Definition PInt (z : Z) : pyval := PNum (NInt z).

(** [x <= k] and [x > k] for a Python number [x] and an [int] constant [k]. *)
Definition num_le (x : pynum) (k : Z) : bool :=
  match x with
  | NBool b => Z.b2z b <=? k
  | NInt z => z <=? k
  | NFloat (FFin q) => Qle_bool q (inject_Z k)
  | NFloat (FInf negative) => negative
  | NFloat FNaN => false
  end.

Definition num_gt (x : pynum) (k : Z) : bool :=
  match x with
  | NBool b => k <? Z.b2z b
  | NInt z => k <? z
  | NFloat (FFin q) => negb (Qle_bool q (inject_Z k))
  | NFloat (FInf negative) => negb negative
  | NFloat FNaN => false
  end.

(** ** Exceptions and results *)

Inductive exn :=
| KeyError
| TypeError
| AttributeError
| JSONDecodeError
| IndexError
| TimeoutExpired
| ClientError
| OtherException (msg : pystr).

(** [str(e)]; an exception the model knows by its class only is shown by
    the name of the class. *)
Definition exn_str (e : exn) : pystr :=
  match e with
  | KeyError => lit "KeyError"
  | TypeError => lit "TypeError"
  | AttributeError => lit "AttributeError"
  | JSONDecodeError => lit "JSONDecodeError"
  | IndexError => lit "IndexError"
  | TimeoutExpired => lit "TimeoutExpired"
  | ClientError => lit "ClientError"
  | OtherException msg => msg
  end.

Inductive result (A : Type) :=
| Ok (a : A)
| Raise (e : exn).
Arguments Ok {A} a.
Arguments Raise {A} e.

(** ** Configuration constants *)

Definition MAX_EXECUTION_TIME : Z := 10.
Definition MAX_MEMORY_MB : Z := 256.
(** [str(MAX_CPU_CORES)], the float 0.5 *)
Definition MAX_CPU_CORES : pystr := lit "0.5".
Definition MAX_PIDS : Z := 50.
Definition MAX_CODE_SIZE : Z := 10 * 1024.

(** The dict literal, in insertion order. *)
Definition LANGUAGE_IMAGES : list (pystr * pystr) :=
  [ (lit "python", lit "python:3.11-alpine");
    (lit "javascript", lit "node:20-alpine");
    (lit "ruby", lit "ruby:3.2-alpine");
    (lit "go", lit "golang:1.21-alpine") ].

Fixpoint assoc {A} (k : pystr) (l : list (pystr * A)) : option A :=
  match l with
  | [] => None
  | (k', v) :: tl => if decide (k = k') then Some v else assoc k tl
  end.

(** ** Environment and world *)

Inductive put_outcome :=
| PutOk
| PutClientError
| PutException (msg : pystr).

(** The answers of [sqs.delete_message]: the message is deleted, the
    service refuses with a [ClientError], or the client raises anything
    else. *)
Inductive delete_outcome :=
| DeleteOk
| DeleteClientError
| DeleteException (msg : pystr).

(** The answers of [subprocess.run]: a completed process, the exception
    [subprocess.TimeoutExpired], or any other exception. *)
Inductive run_outcome :=
| Completed (returncode : Z) (stdout stderr : pystr)
| TimedOut
| Failed (msg : pystr).

Record CompletedProcess := {
  returncode : Z;
  stdout : pystr;
  stderr : pystr
}.

Inductive recv_outcome (M : Type) :=
| RecvMessages (msgs : list M)
| RecvClientError
| RecvException.
Arguments RecvMessages {M} msgs.
Arguments RecvClientError {M}.
Arguments RecvException {M}.

Record Message := {
  ReceiptHandle : pystr;
  Body : pystr
}.

(** What the outside world answers. Calls of the same kind are numbered
    from 0 in the order the worker makes them. *)
Record Env := {
  (** [str(v)], as used by the f-strings *)
  py_str : pyval -> pystr;
  (** [json.loads]; [None] is a [JSONDecodeError] *)
  json_loads : pystr -> option pyval;
  (** the n-th [subprocess.run], given its command, input and timeout *)
  subprocess_run : nat -> list pyval -> pyval -> pyval -> run_outcome;
  (** [int((time.time() - start_time) * 1000)] of the n-th execution *)
  elapsed_ms : nat -> Z;
  (** [x * k] for a float [x] and an int [k] *)
  float_mul_int : pyfloat -> Z -> pyfloat;
  (** the n-th [table.put_item] *)
  put_item : nat -> put_outcome;
  (** the n-th [datetime.utcnow()], in seconds *)
  utcnow : nat -> Z;
  (** [datetime.isoformat] *)
  isoformat : Z -> pystr;
  (** [int(datetime.timestamp())] *)
  timestamp_int : Z -> Z;
  (** the n-th [shutdown_event.is_set()] *)
  is_set : nat -> bool;
  (** the n-th [sqs.delete_message] *)
  sqs_delete_message : nat -> delete_outcome;
  (** environment variable HOSTNAME, or its default *)
  WORKER_ID : pystr
}.

Inductive status := SUCCESS | ERROR | TIMEOUT.

(** The dict returned by [execute_code] and consumed by [write_result]. *)
Record Outcome := {
  o_status : status;
  o_output : pystr;
  o_error : pystr;
  o_execution_time_ms : pyval;
  o_exit_code : Z
}.

(** The item built by [write_result]. *)
Record Item := {
  i_job_id : pyval;
  i_status : status;
  i_output : pystr;
  i_error : pystr;
  i_execution_time_ms : pyval;
  i_exit_code : Z;
  i_language : pyval;
  i_worker_id : pystr;
  i_timestamp : pystr;
  i_ttl : Z
}.

(** Everything the worker does to the outside world, in order. *)
Inductive event :=
| EvRun (cmd : list pyval) (input timeout : pyval)
| EvPut (item : Item) (outcome : put_outcome)
| EvDelete (receipt_handle : pystr)
| EvSleep (seconds : Z).

Record World := {
  (** the DynamoDB table, one item per [job_id] *)
  table : gmap pystr Item;
  trace : list event;
  (** how many calls of each kind were made so far *)
  runs : nat;
  puts : nat;
  clock_reads : nat;
  flag_reads : nat
}.

Definition emit (e : event) (w : World) : World :=
  {| table := table w; trace := trace w ++ [e]; runs := runs w;
     puts := puts w; clock_reads := clock_reads w;
     flag_reads := flag_reads w |}.

(** ** A state and exception monad for the worker's code *)

Definition M (A : Type) : Type := World -> result A * World.

Definition ret {A} (a : A) : M A := fun w => (Ok a, w).
Definition raise {A} (e : exn) : M A := fun w => (Raise e, w).
Definition bind {A B} (m : M A) (k : A -> M B) : M B :=
  fun w => match m w with
           | (Ok a, w') => k a w'
           | (Raise e, w') => (Raise e, w')
           end.
Definition lift {A} (r : result A) : M A := fun w => (r, w).

(** [try: body / except Exception as e: handler e]. *)
Definition try_except {A} (body : M A) (handler : exn -> M A) : M A :=
  fun w => match body w with
           | (Ok a, w') => (Ok a, w')
           | (Raise e, w') => handler e w'
           end.

Notation "'let*' x ':=' m 'in' k" := (bind m (fun x => k))
  (at level 10, x name, m at level 100, k at level 200).
Notation "'do' m 'then' k" := (bind m (fun _ => k))
  (at level 10, m at level 100, k at level 200).

Definition rbind {A B} (r : result A) (k : A -> result B) : result B :=
  match r with
  | Ok a => k a
  | Raise e => Raise e
  end.

Notation "'let?' x ':=' r 'in' k" := (rbind r (fun x => k))
  (at level 10, x name, r at level 100, k at level 200).

(** ** Python primitives on values *)

(** [len(v)] *)
Definition py_len (v : pyval) : result Z :=
  match v with
  | PStr s => Ok (Z.of_nat (length s))
  | PList l => Ok (Z.of_nat (length l))
  | PDict d => Ok (Z.of_nat (size d))
  | PNone | PNum _ => Raise TypeError
  end.

(** [v in LANGUAGE_IMAGES]: the keys are all [str]; lists and dicts are
    unhashable. *)
Definition in_LANGUAGE_IMAGES (v : pyval) : result bool :=
  match v with
  | PStr s => Ok (match assoc s LANGUAGE_IMAGES with Some _ => true | None => false end)
  | PNone | PNum _ => Ok false
  | PList _ | PDict _ => Raise TypeError
  end.

(** [d[k]] *)
Definition getitem (d : gmap pystr pyval) (k : pystr) : result pyval :=
  match d !! k with
  | Some v => Ok v
  | None => Raise KeyError
  end.

(** [d.get(k, dflt)] *)
Definition dict_get (d : gmap pystr pyval) (k : pystr) (dflt : pyval) : pyval :=
  match d !! k with
  | Some v => v
  | None => dflt
  end.

(** [isinstance(v, (int, float))] *)
Definition is_number (v : pyval) : bool :=
  match v with
  | PNum _ => true
  | _ => false
  end.

(** ** Input validation *)

(** The [for field in required] loop: the first field missing from [job]. *)
Fixpoint first_missing (job : gmap pystr pyval) (required : list pystr) : option pystr :=
  match required with
  | [] => None
  | field :: rest =>
      match job !! field with
      | None => Some field
      | Some _ => first_missing job rest
      end
  end.

(** [timeout <= 0 or timeout > MAX_EXECUTION_TIME], after the [isinstance]
    test has passed. *)
Definition timeout_out_of_range (timeout : pyval) : bool :=
  match timeout with
  | PNum n => num_le n 0 || num_gt n MAX_EXECUTION_TIME
  | _ => true
  end.

Definition msg_code_too_large : pystr :=
  lit "Code exceeds size limit of " ++ lit (pretty MAX_CODE_SIZE) ++ lit " bytes".

Definition msg_invalid_timeout : pystr :=
  lit "Invalid timeout. Must be 1-" ++ lit (pretty MAX_EXECUTION_TIME)
  ++ lit " seconds".

Definition validate_job (E : Env) (job : gmap pystr pyval) : result (bool * option pystr) :=
  match first_missing job [lit "job_id"; lit "language"; lit "code"] with
  | Some field => Ok (false, Some (lit "Missing required field: " ++ field))
  | None =>
      let? language := getitem job (lit "language") in
      let? supported := in_LANGUAGE_IMAGES language in
      if negb supported then
        Ok (false, Some (lit "Unsupported language: " ++ py_str E language
                         ++ lit ". Supported: "
                         ++ py_str E (PList (map (fun kv => PStr (fst kv)) LANGUAGE_IMAGES))))
      else
        let? code := getitem job (lit "code") in
        let? n := py_len code in
        if MAX_CODE_SIZE <? n then
          Ok (false, Some msg_code_too_large)
        else
          let timeout := dict_get job (lit "timeout") (PInt MAX_EXECUTION_TIME) in
          if negb (is_number timeout) || timeout_out_of_range timeout then
            Ok (false, Some msg_invalid_timeout)
          else Ok (true, None)
  end.

(** ** Sandboxed execution *)

(** [d[k]] for a dict literal whose keys are all [str]. *)
Definition literal_getitem {A} (d : list (pystr * A)) (k : pyval) : result A :=
  match k with
  | PStr s => match assoc s d with
              | Some v => Ok v
              | None => Raise KeyError
              end
  | PNone | PNum _ => Raise KeyError
  | PList _ | PDict _ => Raise TypeError
  end.

Definition exec_commands (code : pyval) : list (pystr * list pyval) :=
  [ (lit "python", [PStr (lit "python"); PStr (lit "-c"); code]);
    (lit "javascript", [PStr (lit "node"); PStr (lit "-e"); code]);
    (lit "ruby", [PStr (lit "ruby"); PStr (lit "-e"); code]);
    (lit "go", [PStr (lit "go"); PStr (lit "run"); PStr (lit "/dev/stdin")]) ].

(** [l[-1]] *)
Definition last_item (l : list pyval) : result pyval :=
  match last l with
  | Some v => Ok v
  | None => Raise IndexError
  end.

Definition docker_prefix (image : pystr) : list pyval :=
  map PStr
    [ lit "docker"; lit "run"; lit "--rm"; lit "--interactive";
      lit "--network"; lit "none";
      lit "--cpus"; MAX_CPU_CORES;
      lit "--memory"; lit (pretty MAX_MEMORY_MB) ++ lit "m";
      lit "--pids-limit"; lit (pretty MAX_PIDS);
      lit "--read-only";
      lit "--cap-drop"; lit "ALL";
      lit "--security-opt"; lit "no-new-privileges";
      image ].

(** [language == 'go'] *)
Definition is_go (language : pyval) : bool :=
  match language with
  | PStr s => bool_decide (s = lit "go")
  | _ => false
  end.

(** [timeout * 1000] *)
Definition times_1000 (E : Env) (v : pyval) : result pyval :=
  match v with
  | PNum (NBool b) => Ok (PInt (Z.b2z b * 1000))
  | PNum (NInt z) => Ok (PInt (z * 1000))
  | PNum (NFloat f) => Ok (PNum (NFloat (float_mul_int E f 1000)))
  | PStr s => Ok (PStr (mjoin (replicate 1000 s)))
  | PList l => Ok (PList (mjoin (replicate 1000 l)))
  | PNone | PDict _ => Raise TypeError
  end.

(** [start_time = time.time()]: the execution that starts now is the one
    whose duration the environment gives under the number of its run. *)
Definition start_timer : M nat := fun w => (Ok (runs w), w).

(** The call of [subprocess.run]: it consumes the next answer of the
    environment and leaves a trace. *)
Definition run_subprocess (E : Env) (cmd : list pyval) (input timeout : pyval)
  : M CompletedProcess :=
  fun w =>
    (match subprocess_run E (runs w) cmd input timeout with
     | Completed rc out err =>
         Ok {| returncode := rc; stdout := out; stderr := err |}
     | TimedOut => Raise TimeoutExpired
     | Failed msg => Raise (OtherException msg)
     end,
     {| table := table w; trace := trace w ++ [EvRun cmd input timeout];
        runs := S (runs w); puts := puts w; clock_reads := clock_reads w;
        flag_reads := flag_reads w |}).

Definition TRUNCATE : nat := 4000.

Definition execute_code (E : Env) (language code timeout : pyval) : M Outcome :=
  let* start_time := start_timer in
  let* image := lift (literal_getitem LANGUAGE_IMAGES language) in
  let* command := lift (literal_getitem (exec_commands code) language) in
  let docker_cmd := docker_prefix image ++ removelast command in
  try_except
    (let stdin_input := if is_go language then code else PNone in
     let* final := lift (last_item command) in
     let* result := run_subprocess E (docker_cmd ++ [final]) stdin_input timeout in
     ret {| o_status := if returncode result =? 0 then SUCCESS else ERROR;
            o_output := take TRUNCATE (stdout result);
            o_error := take TRUNCATE (stderr result);
            o_execution_time_ms := PInt (elapsed_ms E start_time);
            o_exit_code := returncode result |})
    (fun e =>
       match e with
       | TimeoutExpired =>
           let* ms := lift (times_1000 E timeout) in
           ret {| o_status := TIMEOUT;
                  o_output := [];
                  o_error := lit "Execution exceeded time limit of "
                             ++ py_str E timeout ++ lit "s";
                  o_execution_time_ms := ms;
                  o_exit_code := -1 |}
       | _ =>
           ret {| o_status := ERROR;
                  o_output := [];
                  o_error := lit "Internal execution error: " ++ exn_str e;
                  o_execution_time_ms := PInt (elapsed_ms E start_time);
                  o_exit_code := -1 |}
       end).

(** ** Result writer *)

(** [datetime.utcnow()] *)
Definition read_clock (E : Env) : M Z :=
  fun w =>
    (Ok (utcnow E (clock_reads w)),
     {| table := table w; trace := trace w; runs := runs w; puts := puts w;
        clock_reads := S (clock_reads w); flag_reads := flag_reads w |}).

(** [time.sleep(seconds)] *)
Definition sleep (seconds : Z) : M unit :=
  fun w => (Ok tt, emit (EvSleep seconds) w).

(** [table.put_item(Item=item)]: a full replace of the record stored under
    the item's [job_id]. The table's key is a string attribute: an item
    whose [job_id] is not a [str] is never stored; whether the refusal is a
    ClientError of the service or another exception of the client is the
    environment's choice. *)
Definition put_answer (E : Env) (item : Item) (n : nat) : put_outcome :=
  match i_job_id item with
  | PStr _ => put_item E n
  | _ => match put_item E n with
         | PutOk => PutClientError
         | refused => refused
         end
  end.

Definition record_put (item : Item) (outcome : put_outcome) (w : World) : World :=
  {| table := match outcome, i_job_id item with
              | PutOk, PStr k => <[k := item]> (table w)
              | _, _ => table w
              end;
     trace := trace w ++ [EvPut item outcome];
     runs := runs w; puts := S (puts w); clock_reads := clock_reads w;
     flag_reads := flag_reads w |}.

Definition table_put_item (E : Env) (item : Item) : M unit :=
  fun w =>
    let outcome := put_answer E item (puts w) in
    (match outcome with
     | PutOk => Ok tt
     | PutClientError => Raise ClientError
     | PutException msg => Raise (OtherException msg)
     end,
     record_put item outcome w).

Definition SEVEN_DAYS : Z := 7 * 86400.

Definition make_item (E : Env) (job_id : pyval) (r : Outcome)
    (job_metadata : gmap pystr pyval) (now1 now2 : Z) : Item :=
  {| i_job_id := job_id;
     i_status := o_status r;
     i_output := o_output r;
     i_error := o_error r;
     i_execution_time_ms := o_execution_time_ms r;
     i_exit_code := o_exit_code r;
     i_language := dict_get job_metadata (lit "language") (PStr (lit "unknown"));
     i_worker_id := WORKER_ID E;
     i_timestamp := isoformat E now1;
     i_ttl := timestamp_int E (now2 + SEVEN_DAYS) |}.

(** [for attempt in range(max_retries)], on the attempts still to make. A
    turn of the loop either returns from [write_result] ([Some]) or falls
    through to the next attempt ([None]). *)
Fixpoint put_with_retry (E : Env) (item : Item) (max_retries : Z)
    (attempts : list Z) : M bool :=
  match attempts with
  | [] => ret false
  | attempt :: rest =>
      let* returned :=
        try_except
          (do table_put_item E item then ret (Some true))
          (fun e =>
             match e with
             | ClientError =>
                 if attempt <? max_retries - 1 then
                   let wait_time := 2 ^ attempt in
                   do sleep wait_time then ret None
                 else ret (Some false)
             | _ => raise e
             end) in
      match returned with
      | Some b => ret b
      | None => put_with_retry E item max_retries rest
      end
  end.

Definition write_result (E : Env) (job_id : pyval) (r : Outcome)
    (job_metadata : gmap pystr pyval) : M bool :=
  let* now1 := read_clock E in
  let* now2 := read_clock E in
  let item := make_item E job_id r job_metadata now1 now2 in
  let max_retries := 3 in
  put_with_retry E item max_retries (map Z.of_nat (seq 0 (Z.to_nat max_retries))).

(** ** Message processing *)

(** The receipt handles passed to [sqs.delete_message], in order. *)
Definition deleted (t : list event) : list pystr :=
  omap (fun e => match e with EvDelete h => Some h | _ => None end) t.

(** [delete_message]: the call of [sqs.delete_message] is made and leaves
    its trace; a [ClientError] of the service is logged and swallowed, any
    other exception of the client leaves the method. The call is numbered
    by the deletes made before it. *)
Definition delete_message (E : Env) (receipt_handle : pystr) : M unit :=
  fun w =>
    (match sqs_delete_message E (length (deleted (trace w))) with
     | DeleteOk | DeleteClientError => Ok tt
     | DeleteException msg => Raise (OtherException msg)
     end,
     emit (EvDelete receipt_handle) w).

(** [job.get(k, dflt)] on whatever [json.loads] returned. *)
Definition value_get (job : pyval) (k : pystr) (dflt : pyval) : result pyval :=
  match job with
  | PDict d => Ok (dict_get d k dflt)
  | _ => Raise AttributeError
  end.

Definition as_dict (job : pyval) : result (gmap pystr pyval) :=
  match job with
  | PDict d => Ok d
  | _ => Raise AttributeError
  end.

Definition loads (E : Env) (body : pystr) : result pyval :=
  match json_loads E body with
  | Some v => Ok v
  | None => Raise JSONDecodeError
  end.

Definition validation_outcome (error_msg : option pystr) : Outcome :=
  {| o_status := ERROR;
     o_output := [];
     o_error := lit "Validation error: " ++ default (lit "None") error_msg;
     o_execution_time_ms := PInt 0;
     o_exit_code := -1 |}.

Definition process_message (E : Env) (message : Message) : M unit :=
  let receipt_handle := ReceiptHandle message in
  try_except
    (let* parsed := lift (loads E (Body message)) in
     let* job_id := lift (value_get parsed (lit "job_id") (PStr (lit "unknown"))) in
     let* job := lift (as_dict parsed) in
     let* v := lift (validate_job E job) in
     if negb (fst v) then
       let r := validation_outcome (snd v) in
       let* _ := write_result E job_id r job in
       delete_message E receipt_handle
     else
       let* language := lift (getitem job (lit "language")) in
       let* code := lift (getitem job (lit "code")) in
       let* r := execute_code E language code
                   (dict_get job (lit "timeout") (PInt MAX_EXECUTION_TIME)) in
       let* _ := write_result E job_id r job in
       delete_message E receipt_handle)
    (fun e =>
       match e with
       | JSONDecodeError => delete_message E receipt_handle
       | _ => ret tt
       end).

(** ** Polling loop *)

(** [shutdown_event.is_set()] *)
Definition shutdown_is_set (E : Env) : M bool :=
  fun w =>
    (Ok (is_set E (flag_reads w)),
     {| table := table w; trace := trace w; runs := runs w; puts := puts w;
        clock_reads := clock_reads w; flag_reads := S (flag_reads w) |}).

(** [sqs.receive_message(...)] followed by [response.get('Messages', [])]. *)
Definition receive_message (r : recv_outcome Message) : M (list Message) :=
  match r with
  | RecvMessages msgs => ret msgs
  | RecvClientError => raise ClientError
  | RecvException => raise (OtherException (lit "receive_message"))
  end.

(** [for message in messages], with its shutdown test. *)
Fixpoint process_batch (E : Env) (messages : list Message) : M unit :=
  match messages with
  | [] => ret tt
  | message :: rest =>
      let* stop := shutdown_is_set E in
      if stop then ret tt
      else do process_message E message then process_batch E rest
  end.

Inductive loop_exit := ShutdownRequested | TooManyErrors | StillPolling.

Inductive iteration := Continue (consecutive_errors : Z) | Break (consecutive_errors : Z).

Definition max_consecutive_errors : Z := 5.

(** One pass through the body of [while not shutdown_event.is_set()], for
    the answer [r] of the queue. *)
Definition poll_once (E : Env) (r : recv_outcome Message) (consecutive_errors : Z)
  : M iteration :=
  try_except
    (let* messages := receive_message r in
     match messages with
     | _ :: _ =>
         do process_batch E messages then ret (Continue 0)
     | [] => ret (Continue consecutive_errors)
     end)
    (fun e =>
       let consecutive_errors := consecutive_errors + 1 in
       if max_consecutive_errors <=? consecutive_errors then
         ret (Break consecutive_errors)
       else do sleep 5 then ret (Continue consecutive_errors)).

(** The loop of [poll_queue], run against the successive answers of the
    queue; [StillPolling] is the state of a worker that has consumed them
    all and is about to poll again. The counter is returned with the way
    the loop ended. *)
Fixpoint poll_loop (E : Env) (answers : list (recv_outcome Message))
    (consecutive_errors : Z) : M (loop_exit * Z) :=
  match answers with
  | [] => ret (StillPolling, consecutive_errors)
  | r :: rest =>
      let* stop := shutdown_is_set E in
      if stop then ret (ShutdownRequested, consecutive_errors)
      else
        let* it := poll_once E r consecutive_errors in
        match it with
        | Continue c => poll_loop E rest c
        | Break c => ret (TooManyErrors, c)
        end
  end.

Definition poll_queue (E : Env) (answers : list (recv_outcome Message))
  : M (loop_exit * Z) :=
  poll_loop E answers 0.

Definition initial_world : World :=
  {| table := ∅; trace := []; runs := 0; puts := 0; clock_reads := 0;
     flag_reads := 0 |}.

(** The durations of the [time.sleep] calls of a trace, in order. *)
Definition slept (t : list event) : list Z :=
  omap (fun e => match e with EvSleep s => Some s | _ => None end) t.

(** The items passed to [table.put_item], in order. *)
Definition put_items (t : list event) : list Item :=
  omap (fun e => match e with EvPut i _ => Some i | _ => None end) t.

(** ** Sample environments and jobs *)

Definition demo_str (v : pyval) : pystr :=
  match v with
  | PNone => lit "None"
  | PNum (NBool true) => lit "True"
  | PNum (NBool false) => lit "False"
  | PNum (NInt z) => lit (pretty z)
  | PStr s => s
  | _ => lit "?"
  end.

(** An environment in which every message body parses to [job], every
    sandbox run ends as [run] and the store answers as [store]. *)
Definition demo_env (job : pyval) (run : run_outcome) (store : nat -> put_outcome) : Env :=
  {| py_str := demo_str;
     json_loads := fun _ => Some job;
     subprocess_run := fun _ _ _ _ => run;
     elapsed_ms := fun _ => 42;
     float_mul_int := fun f k =>
       match f with
       | FFin q => FFin (q * inject_Z k)
       | _ => f
       end;
     put_item := store;
     utcnow := fun n => 1700000000 + 30 * Z.of_nat n;
     isoformat := fun z => lit (pretty z);
     timestamp_int := fun z => z;
     is_set := fun _ => false;
     sqs_delete_message := fun _ => DeleteOk;
     WORKER_ID := lit "worker-001" |}.

Definition job_of (fields : list (pystr * pyval)) : gmap pystr pyval :=
  list_to_map fields.

Definition hello_job : gmap pystr pyval :=
  job_of [ (lit "job_id", PStr (lit "job-1"));
           (lit "language", PStr (lit "python"));
           (lit "code", PStr (lit "print('hello world')"));
           (lit "timeout", PInt 5) ].

Definition no_timeout_job : gmap pystr pyval :=
  job_of [ (lit "job_id", PStr (lit "job-2"));
           (lit "language", PStr (lit "python"));
           (lit "code", PStr (lit "print('hello world')")) ].

Definition half_second_job : gmap pystr pyval :=
  job_of [ (lit "job_id", PStr (lit "job-3"));
           (lit "language", PStr (lit "python"));
           (lit "code", PStr (lit "print('hello world')"));
           (lit "timeout", PNum (NFloat (FFin (1 # 2)))) ].

Definition numeric_code_job : gmap pystr pyval :=
  job_of [ (lit "job_id", PStr (lit "job-4"));
           (lit "language", PStr (lit "python"));
           (lit "code", PInt 5) ].

Definition hello_run : run_outcome := Completed 0 (lit "hello world") [].


Definition store_up : nat -> put_outcome := fun _ => PutOk.
Definition store_down : nat -> put_outcome := fun _ => PutClientError.
Definition store_unreachable : nat -> put_outcome :=
  fun _ => PutException (lit "Could not connect to the endpoint URL").

Definition sample_message : Message :=
  {| ReceiptHandle := lit "receipt-1"; Body := lit "{...}" |}.

Definition hello_outcome : Outcome :=
  {| o_status := SUCCESS; o_output := lit "hello world"; o_error := [];
     o_execution_time_ms := PInt 42; o_exit_code := 0 |}.

(** ** Timeouts, as the specification and as the code read them *)

(** The specification's range: an int or float [t] with [1 <= t <= 10]. *)
Definition timeout_in_stated_range (v : pyval) : Prop :=
  match v with
  | PNum (NBool b) => 1 <= Z.b2z b <= 10
  | PNum (NInt z) => 1 <= z <= 10
  | PNum (NFloat (FFin q)) => (inject_Z 1 <= q)%Q /\ (q <= inject_Z 10)%Q
  | _ => False
  end.

(** The timeouts that are numbers and make neither [timeout <= 0] nor
    [timeout > 10] true: the numbers of the half-open interval (0, 10], and
    NaN, for which every comparison is false. *)
Definition timeout_accepted (v : pyval) : Prop :=
  match v with
  | PNum (NBool b) => 0 < Z.b2z b <= 10
  | PNum (NInt z) => 0 < z <= 10
  | PNum (NFloat (FFin q)) => (inject_Z 0 < q)%Q /\ (q <= inject_Z 10)%Q
  | PNum (NFloat FNaN) => True
  | _ => False
  end.

(** ** Image pre-pulling *)

(** One turn of the loop of [prepull_images]: [docker pull image] with a
    timeout of 120 seconds; a failed pull, a timeout or any other exception
    is logged and the loop goes on. *)
Definition pull_image (E : Env) (image : pystr) : M unit :=
  try_except
    (let* result := run_subprocess E
                      [PStr (lit "docker"); PStr (lit "pull"); PStr image]
                      PNone (PInt 120) in
     ret tt)
    (fun e => ret tt).

(** [for language, image in LANGUAGE_IMAGES.items()] *)
Fixpoint pull_all (E : Env) (images : list (pystr * pystr)) : M unit :=
  match images with
  | [] => ret tt
  | (language, image) :: rest =>
      do pull_image E image then pull_all E rest
  end.

Definition prepull_images (E : Env) : M unit := pull_all E LANGUAGE_IMAGES.

(** The command lines passed to [subprocess.run], in order. *)
Definition commands_run (t : list event) : list (list pyval) :=
  omap (fun e => match e with EvRun cmd _ _ => Some cmd | _ => None end) t.

(** The world after one more read of the shutdown flag. *)
Definition flag_read (w : World) : World :=
  {| table := table w; trace := trace w; runs := runs w; puts := puts w;
     clock_reads := clock_reads w; flag_reads := S (flag_reads w) |}.

(** A poll that failed, with a ClientError or with any other exception. *)
Definition is_failed_poll (r : recv_outcome Message) : bool :=
  match r with
  | RecvMessages _ => false
  | RecvClientError | RecvException => true
  end.

(** * Submission ([src/lambda/producer.py]) *)

Module Producer.

Definition MAX_CODE_SIZE : Z := 10 * 1024.
Definition MAX_TIMEOUT : Z := 10.
Definition ALLOWED_LANGUAGES : list pystr :=
  [lit "python"; lit "javascript"; lit "ruby"; lit "go"].

Inductive send_outcome :=
| SendOk (message_id : pystr)
| SendClientError (text : pystr)
| SendException (text : pystr).

(** What the outside world answers to the submission function. *)
Record Env := {
  (** [str.lower] *)
  lower : pystr -> pystr;
  (** [str(v)], as used by the f-strings *)
  format : pyval -> pystr;
  (** [json.loads]; [None] is a [JSONDecodeError] *)
  loads : pystr -> option pyval;
  (** [json.dumps] *)
  dumps : pyval -> pystr;
  (** the n-th [str(uuid.uuid4())] *)
  uuid4 : nat -> pystr;
  (** the n-th [datetime.utcnow().isoformat()] *)
  utcnow_isoformat : nat -> pystr;
  (** the n-th [table.put_item] *)
  put_item : nat -> put_outcome;
  (** the n-th [sqs.send_message] *)
  send_message : nat -> send_outcome
}.

(** The record written by [initialize_job_record]. *)
Record PendingItem := {
  p_job_id : pystr;
  p_status : pystr;
  p_language : pyval;
  p_submitted_at : pystr;
  p_output : pystr;
  p_error : pystr;
  p_execution_time_ms : Z
}.

(** A message handed to [sqs.send_message]. *)
Record Sent := {
  MessageBody : pystr;
  attribute_job_id : pyval;
  attribute_language : pyval
}.

Record World := {
  (** the records created in the table *)
  records : gmap pystr PendingItem;
  (** the messages accepted by the queue, oldest first *)
  queue : list Sent;
  (** how many calls of each kind were made so far *)
  ids : nat;
  clock_reads : nat;
  puts : nat;
  sends : nat
}.

Record Response := {
  statusCode : Z;
  body : pystr
}.

(** [key in v], for a [str] key *)
Fixpoint occurs_in (key s : pystr) : bool :=
  if decide (key `prefix_of` s) then true
  else match s with
       | [] => false
       | _ :: rest => occurs_in key rest
       end.

Definition contains (v : pyval) (key : pystr) : result bool :=
  match v with
  | PDict d => Ok (match d !! key with Some _ => true | None => false end)
  | PList l =>
      Ok (existsb (fun x => match x with
                            | PStr s => bool_decide (s = key)
                            | _ => false
                            end) l)
  | PStr s => Ok (occurs_in key s)
  | PNone | PNum _ => Raise TypeError
  end.

(** [v[key]], for a [str] key *)
Definition subscript (v : pyval) (key : pystr) : result pyval :=
  match v with
  | PDict d => getitem d key
  | _ => Raise TypeError
  end.

(** [v.get(key, dflt)] *)
Definition get (v : pyval) (key : pystr) (dflt : pyval) : result pyval :=
  match v with
  | PDict d => Ok (dict_get d key dflt)
  | _ => Raise AttributeError
  end.

(** [v.lower()] *)
Definition lowered (E : Env) (v : pyval) : result pystr :=
  match v with
  | PStr s => Ok (lower E s)
  | _ => Raise AttributeError
  end.

(** [timeout <= 0 or timeout > MAX_TIMEOUT] *)
Definition out_of_range (timeout : pynum) : bool :=
  num_le timeout 0 || num_gt timeout MAX_TIMEOUT.

(** The patterns searched in the code afterwards only print a warning;
    they change neither the result nor anything else. *)
Definition validate_request (E : Env) (body : pyval) : result (bool * pystr) :=
  let? has_language := contains body (lit "language") in
  if negb has_language then
    Ok (false, lit "Missing required field: 'language'")
  else
    let? has_code := contains body (lit "code") in
    if negb has_code then
      Ok (false, lit "Missing required field: 'code'")
    else
      let? raw := subscript body (lit "language") in
      let? language := lowered E raw in
      if negb (bool_decide (language ∈ ALLOWED_LANGUAGES)) then
        Ok (false, lit "Unsupported language '" ++ language
                   ++ lit "'. Allowed: "
                   ++ format E (PList (map PStr ALLOWED_LANGUAGES)))
      else
        let? code := subscript body (lit "code") in
        match code with
        | PStr text =>
            if Z.of_nat (length text) =? 0 then
              Ok (false, lit "Code cannot be empty")
            else if MAX_CODE_SIZE <? Z.of_nat (length text) then
              Ok (false, lit "Code exceeds maximum size of "
                         ++ lit (pretty MAX_CODE_SIZE) ++ lit " bytes")
            else
              let? timeout := get body (lit "timeout") (PInt 5) in
              match timeout with
              | PNum t =>
                  if out_of_range t then
                    Ok (false, lit "Timeout must be between 1 and "
                               ++ lit (pretty MAX_TIMEOUT) ++ lit " seconds")
                  else Ok (true, [])
              | _ => Ok (false, lit "Field 'timeout' must be a number")
              end
        | _ => Ok (false, lit "Field 'code' must be a string")
        end.

Definition took_id (w : World) : World :=
  {| records := records w; queue := queue w; ids := S (ids w);
     clock_reads := clock_reads w; puts := puts w; sends := sends w |}.

Definition read_clock (w : World) : World :=
  {| records := records w; queue := queue w; ids := ids w;
     clock_reads := S (clock_reads w); puts := puts w; sends := sends w |}.

(** The job payload, with a fresh id and the time of creation. *)
Definition create_job (E : Env) (body : pyval) (w : World)
  : result (gmap pystr pyval) * World :=
  let job_id := uuid4 E (ids w) in
  let w1 := took_id w in
  match (let? raw := subscript body (lit "language") in
         let? language := lowered E raw in
         let? code := subscript body (lit "code") in
         let? timeout := get body (lit "timeout") (PInt 5) in
         Ok (language, code, timeout)) with
  | Raise e => (Raise e, w1)
  | Ok (language, code, timeout) =>
      let submitted_at := utcnow_isoformat E (clock_reads w1) in
      let w2 := read_clock w1 in
      match get body (lit "user_agent") (PStr (lit "unknown")) with
      | Raise e => (Raise e, w2)
      | Ok user_agent =>
          (Ok (list_to_map
                 [ (lit "job_id", PStr job_id);
                   (lit "language", PStr language);
                   (lit "code", code);
                   (lit "timeout", timeout);
                   (lit "submitted_at", PStr submitted_at);
                   (lit "metadata",
                    PDict (list_to_map
                             [ (lit "source_ip", PStr (lit "api-gateway"));
                               (lit "user_agent", user_agent) ])) ]),
           w2)
      end
  end.

(** The initial PENDING record; a ClientError of the store is reported as
    False, any other exception leaves the function. *)
Definition initialize_job_record (E : Env) (job_id : pystr) (language : pyval)
    (w : World) : result bool * World :=
  let submitted_at := utcnow_isoformat E (clock_reads w) in
  let w1 := read_clock w in
  let item := {| p_job_id := job_id; p_status := lit "PENDING";
                 p_language := language; p_submitted_at := submitted_at;
                 p_output := []; p_error := []; p_execution_time_ms := 0 |} in
  let after (stored : bool) :=
    {| records := if stored then <[job_id := item]> (records w1) else records w1;
       queue := queue w1; ids := ids w1; clock_reads := clock_reads w1;
       puts := S (puts w1); sends := sends w1 |} in
  match put_item E (puts w1) with
  | PutOk => (Ok true, after true)
  | PutClientError => (Ok false, after false)
  | PutException text => (Raise (OtherException text), after false)
  end.

(** The job goes to the queue as JSON, with its id and language as
    message attributes. *)
Definition enqueue_job (E : Env) (job : gmap pystr pyval) (w : World)
  : result (bool * pystr) * World :=
  let message_body := dumps E (PDict job) in
  match (let? job_id := getitem job (lit "job_id") in
         let? language := getitem job (lit "language") in
         Ok (job_id, language)) with
  | Raise e => (Raise e, w)
  | Ok (job_id, language) =>
      let after (accepted : bool) :=
        {| records := records w;
           queue := if accepted
                    then queue w ++ [ {| MessageBody := message_body;
                                         attribute_job_id := job_id;
                                         attribute_language := language |} ]
                    else queue w;
           ids := ids w; clock_reads := clock_reads w; puts := puts w;
           sends := S (sends w) |} in
      match send_message E (sends w) with
      | SendOk message_id => (Ok (true, message_id), after true)
      | SendClientError text => (Ok (false, text), after false)
      | SendException text => (Raise (OtherException text), after false)
      end
  end.

Definition error_response (E : Env) (code : Z) (text : pystr) : Response :=
  {| statusCode := code;
     body := dumps E (PDict {[ lit "error" := PStr text ]}) |}.

Definition accepted_response (E : Env) (job_id : pystr) : Response :=
  {| statusCode := 202;
     body := dumps E (PDict (list_to_map
               [ (lit "job_id", PStr job_id);
                 (lit "status", PStr (lit "PENDING"));
                 (lit "message", PStr (lit "Job queued for execution"));
                 (lit "status_url", PStr (lit "/status/" ++ job_id));
                 (lit "estimated_wait_seconds", PInt 5) ])) |}.

(** The request body: the parsed [event['body']] when it is a string,
    [event['body']] itself when it is not, the event when it has no body. *)
Definition request_body (E : Env) (event : gmap pystr pyval) : result pyval :=
  match event !! lit "body" with
  | Some (PStr text) =>
      match loads E text with
      | Some v => Ok v
      | None => Raise JSONDecodeError
      end
  | Some v => Ok v
  | None => Ok (PDict event)
  end.

(** [f'{job_id}'] of the job just created, whose id is a [str]. *)
Definition job_id_of (job : gmap pystr pyval) : result pystr :=
  match job !! lit "job_id" with
  | Some (PStr s) => Ok s
  | Some _ => Raise TypeError
  | None => Raise KeyError
  end.

Definition lambda_handler (E : Env) (event : gmap pystr pyval) (w : World)
  : result Response * World :=
  match request_body E event with
  | Raise JSONDecodeError =>
      (Ok (error_response E 400 (lit "Invalid JSON in request body")), w)
  | Raise e => (Raise e, w)
  | Ok request =>
      match validate_request E request with
      | Raise e => (Raise e, w)
      | Ok (false, error_msg) => (Ok (error_response E 400 error_msg), w)
      | Ok (true, _) =>
          match create_job E request w with
          | (Raise e, w1) => (Raise e, w1)
          | (Ok job, w1) =>
              match job_id_of job, getitem job (lit "language") with
              | Raise e, _ => (Raise e, w1)
              | Ok _, Raise e => (Raise e, w1)
              | Ok job_id, Ok language =>
                  match initialize_job_record E job_id language w1 with
                  | (Raise e, w2) => (Raise e, w2)
                  | (Ok false, w2) =>
                      (Ok (error_response E 500
                             (lit "Failed to initialize job record")), w2)
                  | (Ok true, w2) =>
                      match enqueue_job E job w2 with
                      | (Raise e, w3) => (Raise e, w3)
                      | (Ok (false, text), w3) =>
                          (Ok (error_response E 500
                                 (lit "Failed to enqueue job: " ++ text)), w3)
                      | (Ok (true, _), w3) =>
                          (Ok (accepted_response E job_id), w3)
                      end
                  end
              end
          end
      end
  end.

End Producer.

(** ** Further sample inputs *)

Definition haskell_job : gmap pystr pyval :=
  job_of [ (lit "job_id", PStr (lit "job-5"));
           (lit "language", PStr (lit "haskell"));
           (lit "code", PStr (lit "main = print 1")) ].

(** [E], with every message body failing to parse. *)
Definition with_garbled_bodies (E : Env) : Env :=
  {| py_str := py_str E; json_loads := fun _ => None;
     subprocess_run := subprocess_run E; elapsed_ms := elapsed_ms E;
     float_mul_int := float_mul_int E; put_item := put_item E;
     utcnow := utcnow E; isoformat := isoformat E;
     timestamp_int := timestamp_int E; is_set := is_set E;
     sqs_delete_message := sqs_delete_message E;
     WORKER_ID := WORKER_ID E |}.

(** [E], with the shutdown flag found set from its [n]-th read on. *)
Definition with_shutdown_at (n : nat) (E : Env) : Env :=
  {| py_str := py_str E; json_loads := json_loads E;
     subprocess_run := subprocess_run E; elapsed_ms := elapsed_ms E;
     float_mul_int := float_mul_int E; put_item := put_item E;
     utcnow := utcnow E; isoformat := isoformat E;
     timestamp_int := timestamp_int E; is_set := fun i => (n <=? i)%nat;
     sqs_delete_message := sqs_delete_message E;
     WORKER_ID := WORKER_ID E |}.

(** [E], with every [sqs.delete_message] answered by [answer]. *)
Definition with_deletes (answer : delete_outcome) (E : Env) : Env :=
  {| py_str := py_str E; json_loads := json_loads E;
     subprocess_run := subprocess_run E; elapsed_ms := elapsed_ms E;
     float_mul_int := float_mul_int E; put_item := put_item E;
     utcnow := utcnow E; isoformat := isoformat E;
     timestamp_int := timestamp_int E; is_set := is_set E;
     sqs_delete_message := fun _ => answer;
     WORKER_ID := WORKER_ID E |}.

Definition connection_lost : delete_outcome :=
  DeleteException (lit "Could not connect to the endpoint URL").

(** Lower case, on the ASCII letters. *)
Definition ascii_lower (s : pystr) : pystr :=
  map (fun c => if ((65 <=? c) && (c <=? 90))%N then (c + 32)%N else c) s.

Definition demo_producer (request : pyval) (store : nat -> put_outcome)
    (broker : nat -> Producer.send_outcome) : Producer.Env :=
  {| Producer.lower := ascii_lower;
     Producer.format := demo_str;
     Producer.loads := fun _ => Some request;
     Producer.dumps := fun _ => lit "{...}";
     Producer.uuid4 := fun n => lit "id-" ++ lit (pretty n);
     Producer.utcnow_isoformat := fun n => lit (pretty (1700000000 + Z.of_nat n));
     Producer.put_item := store;
     Producer.send_message := broker |}.

Definition broker_up : nat -> Producer.send_outcome :=
  fun _ => Producer.SendOk (lit "message-1").

Definition hello_request : gmap pystr pyval :=
  job_of [ (lit "language", PStr (lit "Python"));
           (lit "code", PStr (lit "print('hello world')"));
           (lit "timeout", PInt 5) ].

Definition hello_event : gmap pystr pyval :=
  job_of [ (lit "body", PStr (lit "{...}")) ].

Definition producer_start : Producer.World :=
  {| Producer.records := ∅; Producer.queue := []; Producer.ids := 0;
     Producer.clock_reads := 0; Producer.puts := 0; Producer.sends := 0 |}.

(** ** The sandboxed process, as [subprocess.run] sees it *)

(** How the process started by [subprocess.run] ended: it exited with an
    exit code, having written these bytes to its stdout and stderr; it was
    still running when the timeout expired; or it could not be started or
    supervised, [subprocess.run] raising for this reason (the docker client
    is missing or cannot be executed, the input cannot be encoded). A
    docker client that starts and then fails to launch the container is a
    process that exits, with the client's own exit code. *)
Inductive process_end :=
| Exited (code : Z) (out err : list N)
| Overran
| NotStarted (reason : pystr).

(** A captured stream read in text mode ([text=True]): the text, or the
    message of the [UnicodeDecodeError]. *)
Inductive decoded :=
| Text (s : pystr)
| Undecodable (msg : pystr).

(** What lies below [subprocess.run]. *)
Record Runtime := {
  (** the process started by the n-th call *)
  process : nat -> list pyval -> pyval -> pyval -> process_end;
  (** text mode on a captured stream, in the encoding of the locale *)
  decode : list N -> decoded
}.

(** [subprocess.run(cmd, input=..., capture_output=True, text=True,
    timeout=...)], without [check]: the exit code is returned, whatever it
    is; stdout is decoded before stderr. *)
Definition run_answer (R : Runtime) (p : process_end) : run_outcome :=
  match p with
  | Exited code out err =>
      match decode R out with
      | Undecodable msg => Failed msg
      | Text stdout =>
          match decode R err with
          | Undecodable msg => Failed msg
          | Text stderr => Completed code stdout stderr
          end
      end
  | Overran => TimedOut
  | NotStarted reason => Failed reason
  end.

(** [E], with [subprocess.run] answering for the processes of [R]. *)
Definition with_runtime (R : Runtime) (E : Env) : Env :=
  {| py_str := py_str E; json_loads := json_loads E;
     subprocess_run := fun n cmd input timeout =>
       run_answer R (process R n cmd input timeout);
     elapsed_ms := elapsed_ms E;
     float_mul_int := float_mul_int E; put_item := put_item E;
     utcnow := utcnow E; isoformat := isoformat E;
     timestamp_int := timestamp_int E; is_set := is_set E;
     sqs_delete_message := sqs_delete_message E;
     WORKER_ID := WORKER_ID E |}.

(** Strict UTF-8: no overlong form, no surrogate, nothing above U+10FFFF. *)
Definition is_continuation (b : N) : bool := ((128 <=? b) && (b <=? 191))%N.

Fixpoint utf8_decode (bytes : list N) : option pystr :=
  match bytes with
  | [] => Some []
  | b0 :: rest =>
      if (b0 <? 128)%N then option_map (cons b0) (utf8_decode rest)
      else if ((194 <=? b0) && (b0 <=? 223))%N then
        match rest with
        | b1 :: rest' =>
            if is_continuation b1
            then option_map (cons ((b0 - 192) * 64 + (b1 - 128))%N)
                   (utf8_decode rest')
            else None
        | _ => None
        end
      else if ((224 <=? b0) && (b0 <=? 239))%N then
        match rest with
        | b1 :: b2 :: rest' =>
            let c := ((b0 - 224) * 4096 + (b1 - 128) * 64 + (b2 - 128))%N in
            if is_continuation b1 && is_continuation b2
               && (2048 <=? c)%N && negb ((55296 <=? c) && (c <=? 57343))%N
            then option_map (cons c) (utf8_decode rest')
            else None
        | _ => None
        end
      else if ((240 <=? b0) && (b0 <=? 244))%N then
        match rest with
        | b1 :: b2 :: b3 :: rest' =>
            let c := ((b0 - 240) * 262144 + (b1 - 128) * 4096
                      + (b2 - 128) * 64 + (b3 - 128))%N in
            if is_continuation b1 && is_continuation b2 && is_continuation b3
               && (65536 <=? c)%N && (c <=? 1114111)%N
            then option_map (cons c) (utf8_decode rest')
            else None
        | _ => None
        end
      else None
  end.

(** Universal newlines: CR LF and CR both become LF. *)
Fixpoint translate_newlines (s : pystr) : pystr :=
  match s with
  | [] => []
  | c :: rest =>
      if (c =? 13)%N then
        10%N :: match rest with
                | c' :: rest' =>
                    if (c' =? 10)%N then translate_newlines rest'
                    else translate_newlines rest
                | [] => []
                end
      else c :: translate_newlines rest
  end.

(** A runtime in a UTF-8 locale in which every sandbox run ends as [p];
    [msg] is the text of the decoding error, if there is one. *)
Definition utf8_runtime (p : process_end) (msg : pystr) : Runtime :=
  {| process := fun _ _ _ _ => p;
     decode := fun bytes =>
       match utf8_decode bytes with
       | Some s => Text (translate_newlines s)
       | None => Undecodable msg
       end |}.

(** A program that exits with code 0 after writing the single byte 0xFF to
    its stdout, as [import sys; sys.stdout.buffer.write(b'\xff')] does. *)
Definition byte_ff_code : pyval :=
  PStr (lit "import sys; sys.stdout.buffer.write(b'\xff')").

Definition byte_ff_runtime : Runtime :=
  utf8_runtime (Exited 0 [255%N] [])
    (lit "'utf-8' codec can't decode byte 0xff in position 0: invalid start byte").

(** The docker client starts, cannot reach the daemon, and exits with its
    code 125: the container is never launched. *)
Definition daemon_down_runtime : Runtime :=
  utf8_runtime
    (Exited 125 []
       (lit "docker: Cannot connect to the Docker daemon at unix:///var/run/docker.sock."))
    [].

Definition hello_runtime : Runtime :=
  utf8_runtime (Exited 0 (lit "hello world" ++ [10%N]) []) [].

(** * Properties *)

(** ** Sandbox executor *)

Section Executor.

Variable E : Env.

Lemma supported_language_cases (l image : pystr) :
  assoc l LANGUAGE_IMAGES = Some image ->
  (l = lit "python" /\ image = lit "python:3.11-alpine") \/
  (l = lit "javascript" /\ image = lit "node:20-alpine") \/
  (l = lit "ruby" /\ image = lit "ruby:3.2-alpine") \/
  (l = lit "go" /\ image = lit "golang:1.21-alpine").
Proof.
  unfold LANGUAGE_IMAGES, assoc.
  repeat case_decide; intros Himg; try discriminate Himg;
    injection Himg as <-; subst l; tauto.
Qed.

Lemma removelast_last_item (command : list pyval) (x : pyval) :
  last command = Some x -> removelast command ++ [x] = command.
Proof.
  induction command as [|a [|b tl] IH]; simpl; intros H.
  - discriminate.
  - now inversion H.
  - f_equal. apply IH. exact H.
Qed.

(** Every whitelisted language has a command line, and it is not empty. *)
Lemma exec_commands_supported (l image : pystr) (code : pyval) :
  assoc l LANGUAGE_IMAGES = Some image ->
  exists command final,
    assoc l (exec_commands code) = Some command /\ last command = Some final.
Proof.
  intros H.
  destruct (supported_language_cases _ _ H) as [[-> _]|[[-> _]|[[-> _]|[-> _]]]];
    do 2 eexists; split; vm_compute; reflexivity.
Qed.

(** What [execute_code] does for a whitelisted language: one call of
    [subprocess.run], whose answer decides the outcome. *)
Lemma execute_code_supported l image code timeout w :
  assoc l LANGUAGE_IMAGES = Some image ->
  exists command,
    assoc l (exec_commands code) = Some command /\
    execute_code E (PStr l) code timeout w =
      let cmd := docker_prefix image ++ command in
      let input := if is_go (PStr l) then code else PNone in
      let w' := {| table := table w; trace := trace w ++ [EvRun cmd input timeout];
                   runs := S (runs w); puts := puts w;
                   clock_reads := clock_reads w; flag_reads := flag_reads w |} in
      match subprocess_run E (runs w) cmd input timeout with
      | Completed returncode stdout stderr =>
          (Ok {| o_status := if returncode =? 0 then SUCCESS else ERROR;
                 o_output := take TRUNCATE stdout;
                 o_error := take TRUNCATE stderr;
                 o_execution_time_ms := PInt (elapsed_ms E (runs w));
                 o_exit_code := returncode |}, w')
      | TimedOut =>
          match times_1000 E timeout with
          | Ok ms =>
              (Ok {| o_status := TIMEOUT;
                     o_output := [];
                     o_error := lit "Execution exceeded time limit of "
                                ++ py_str E timeout ++ lit "s";
                     o_execution_time_ms := ms;
                     o_exit_code := -1 |}, w')
          | Raise e => (Raise e, w')
          end
      | Failed msg =>
          (Ok {| o_status := ERROR;
                 o_output := [];
                 o_error := lit "Internal execution error: " ++ msg;
                 o_execution_time_ms := PInt (elapsed_ms E (runs w));
                 o_exit_code := -1 |}, w')
      end.
Proof.
  intros H.
  destruct (exec_commands_supported l image code H) as (command & final & Hc & Hl).
  exists command. split; [exact Hc|].
  unfold execute_code, try_except, bind, lift, start_timer, literal_getitem,
    last_item, run_subprocess.
  rewrite H, Hc, Hl.
  rewrite <- app_assoc, (removelast_last_item _ _ Hl).
  cbv zeta.
  destruct (subprocess_run E (runs w) _ _ timeout); reflexivity.
Qed.

(** A numeric timeout can always be scaled to milliseconds. *)
Lemma times_1000_number (t : pynum) :
  exists ms, times_1000 E (PNum t) = Ok ms.
Proof. destruct t as [b|z|f]; simpl; eauto. Qed.

(** A language outside the whitelist never reaches the sandbox: the image
    lookup fails before the [try]. *)
Lemma execute_code_unsupported l code timeout w :
  assoc l LANGUAGE_IMAGES = None ->
  execute_code E (PStr l) code timeout w = (Raise KeyError, w).
Proof.
  intros H. unfold execute_code, bind, lift, start_timer, literal_getitem.
  now rewrite H.
Qed.




(** Classification by the answer of [subprocess.run]: for a whitelisted
    language, [execute_code] makes one call of it, returns an outcome and
    never raises. A completed process with return code 0 gives SUCCESS;
    with another return code, ERROR with the captured stderr in the error
    field; [TimeoutExpired] gives TIMEOUT, exit code -1 and the message
    "Execution exceeded time limit of <timeout>s"; any other exception
    gives ERROR, exit code -1 and the message "Internal execution error:
    <reason>". [subprocess.run] is taken to report an expired timeout only
    when it was given a number as timeout. *)
Theorem execute_code_classifies (l image : pystr) (code timeout : pyval)
    (w : World) :
  assoc l LANGUAGE_IMAGES = Some image ->
  (forall cmd input,
     subprocess_run E (runs w) cmd input timeout = TimedOut ->
     is_number timeout = true) ->
  exists command out,
    let cmd := docker_prefix image ++ command in
    let input := if is_go (PStr l) then code else PNone in
    assoc l (exec_commands code) = Some command /\
    fst (execute_code E (PStr l) code timeout w) = Ok out /\
    trace (snd (execute_code E (PStr l) code timeout w))
      = trace w ++ [EvRun cmd input timeout] /\
    match subprocess_run E (runs w) cmd input timeout with
    | Completed returncode stdout stderr =>
        (returncode = 0 -> o_status out = SUCCESS) /\
        (returncode <> 0 ->
           o_status out = ERROR /\ o_error out = take 4000 stderr) /\
        o_exit_code out = returncode
    | TimedOut =>
        o_status out = TIMEOUT /\
        o_error out = lit "Execution exceeded time limit of "
                      ++ py_str E timeout ++ lit "s" /\
        o_exit_code out = -1
    | Failed msg =>
        o_status out = ERROR /\
        o_error out = lit "Internal execution error: " ++ msg /\
        o_exit_code out = -1
    end.
Proof.
  intros H Htimer.
  destruct (execute_code_supported l image code timeout w H) as (command & Hc & Heq).
  exists command. rewrite Heq. cbv zeta.
  destruct (subprocess_run E (runs w) _ _ timeout) as [rc so se| |msg] eqn:Hrun.
  - eexists; (split; [exact Hc|]); (split; [reflexivity|]);
      (split; [reflexivity|]); simpl.
    split; [intros ->; reflexivity|].
    split; [|reflexivity].
    intros Hrc. apply Z.eqb_neq in Hrc. now rewrite Hrc.
  - destruct timeout as [|t| | |]; try (specialize (Htimer _ _ Hrun); discriminate).
    destruct (times_1000_number t) as [ms Hms]. rewrite Hms.
    eexists; (split; [exact Hc|]); (split; [reflexivity|]);
      (split; [reflexivity|]); simpl; tauto.
  - eexists; (split; [exact Hc|]); (split; [reflexivity|]);
      (split; [reflexivity|]); simpl; tauto.
Qed.


End Executor.

Lemma execute_code_classifies_witness :
  assoc (lit "python") LANGUAGE_IMAGES = Some (lit "python:3.11-alpine") /\
  (forall cmd input,
     subprocess_run (demo_env (PDict hello_job) hello_run store_up)
       (runs initial_world) cmd input (PInt 5) = TimedOut ->
     is_number (PInt 5) = true) /\
  exists out,
    fst (execute_code (demo_env (PDict hello_job) hello_run store_up)
           (PStr (lit "python")) (PStr (lit "print('hello world')"))
           (PInt 5) initial_world) = Ok out /\
    o_status out = SUCCESS /\ o_exit_code out = 0.
Proof.
  split; [reflexivity|]. split; [intros cmd input _; reflexivity|].
  destruct (execute_code_classifies (demo_env (PDict hello_job) hello_run store_up)
              (lit "python") (lit "python:3.11-alpine")
              (PStr (lit "print('hello world')")) (PInt 5) initial_world
              eq_refl (fun _ _ _ => eq_refl))
    as (command & out & _ & Hout & _ & Hcls).
  exists out. split; [exact Hout|].
  simpl in Hcls. destruct Hcls as (Hok & _ & Hexit).
  split; [apply Hok; reflexivity | exact Hexit].
Defined.

(** For a language without an image the lookup raises KeyError before the
    sandbox is attempted, and the exception reaches the caller;
    [validate_job] keeps such jobs away from [execute_code]. *)
Lemma execute_code_unlisted_language_raises :
  execute_code (demo_env (PDict hello_job) hello_run store_up)
    (PStr (lit "haskell")) (PStr (lit "main = print 1")) (PInt 5)
    initial_world
  = (Raise KeyError, initial_world).
Proof. vm_compute. reflexivity. Qed.

(** ** The sandboxed process and its classification *)

Section SandboxedProcess.

Variable E : Env.

(** [execute_code] starts a process only for a whitelisted language, and
    then with the command line of that language. *)
Lemma execute_code_started language code timeout w cmd input :
  trace (snd (execute_code E language code timeout w))
    = trace w ++ [EvRun cmd input timeout] ->
  exists l image command,
    language = PStr l /\
    assoc l LANGUAGE_IMAGES = Some image /\
    assoc l (exec_commands code) = Some command /\
    cmd = docker_prefix image ++ command /\
    input = (if is_go (PStr l) then code else PNone).
Proof.
  intros Htrace.
  assert (Hnone : forall e, execute_code E language code timeout w = (Raise e, w)
                            -> False).
  { intros e He. rewrite He in Htrace. cbn [snd] in Htrace.
    rewrite <- (app_nil_r (trace w)) in Htrace at 1.
    apply app_inv_head in Htrace. discriminate Htrace. }
  destruct language as [|x|l| |]; try (exfalso; eapply Hnone; reflexivity).
  destruct (assoc l LANGUAGE_IMAGES) as [image|] eqn:Himg.
  2: { exfalso. eapply Hnone. now apply execute_code_unsupported. }
  destruct (execute_code_supported E l image code timeout w Himg)
    as (command & Hcmd & Heq).
  exists l, image, command.
  split; [reflexivity|]. split; [exact Himg|]. split; [exact Hcmd|].
  rewrite Heq in Htrace. cbv zeta in Htrace.
  assert (Hev : trace w ++ [EvRun (docker_prefix image ++ command)
                              (if is_go (PStr l) then code else PNone) timeout]
                = trace w ++ [EvRun cmd input timeout]).
  { rewrite <- Htrace.
    destruct (subprocess_run E (runs w) _ _ timeout); try reflexivity.
    destruct (times_1000 E timeout); reflexivity. }
  apply app_inv_head in Hev. injection Hev as <- <-. split; reflexivity.
Qed.

End SandboxedProcess.

Section Classification.

Variable E : Env.
Variable R : Runtime.

(** C2, amended: whenever [execute_code] starts the sandboxed process, the
    way the process ends decides the outcome, and no exception reaches the
    caller. A process that exits within the timeout and whose captured
    stdout and stderr decode as text gives SUCCESS for exit code 0 and, for
    any other exit code, ERROR with the first 4000 characters of stderr in
    the error field; the exit code of the process is reported, also when it
    is the docker client's own. A process that exits, even with code 0,
    and whose output does not decode gives ERROR with the message
    "Internal execution error: <decoding error>" and exit code -1. A
    process still running when a numeric timeout expires gives TIMEOUT,
    the message "Execution exceeded time limit of <timeout>s" and exit
    code -1. A process that cannot be started or supervised gives ERROR
    with the message "Internal execution error: <reason>" and exit
    code -1. *)
Theorem execute_code_classifies_processes (language code timeout : pyval)
    (w : World) (cmd : list pyval) (input : pyval) :
  trace (snd (execute_code (with_runtime R E) language code timeout w))
    = trace w ++ [EvRun cmd input timeout] ->
  let returned := fst (execute_code (with_runtime R E) language code timeout w) in
  let internal_error msg :=
    exists out,
      returned = Ok out /\
      o_status out = ERROR /\
      o_error out = lit "Internal execution error: " ++ msg /\
      o_exit_code out = -1 in
  match process R (runs w) cmd input timeout with
  | Exited exit_code out_bytes err_bytes =>
      match decode R out_bytes, decode R err_bytes with
      | Text stdout, Text stderr =>
          exists out,
            returned = Ok out /\
            (exit_code = 0 -> o_status out = SUCCESS) /\
            (exit_code <> 0 ->
               o_status out = ERROR /\ o_error out = take 4000 stderr) /\
            o_exit_code out = exit_code
      | Undecodable msg, _ => internal_error msg
      | Text _, Undecodable msg => internal_error msg
      end
  | Overran =>
      is_number timeout = true ->
      exists out,
        returned = Ok out /\
        o_status out = TIMEOUT /\
        o_error out = lit "Execution exceeded time limit of "
                      ++ py_str E timeout ++ lit "s" /\
        o_exit_code out = -1
  | NotStarted reason => internal_error reason
  end.
Proof.
  intros Htrace.
  destruct (execute_code_started (with_runtime R E) language code timeout w
              cmd input Htrace)
    as (l & image & command & -> & Himg & Hcmd & -> & ->).
  destruct (execute_code_supported (with_runtime R E) l image code timeout w Himg)
    as (command' & Hcmd' & Heq).
  rewrite Hcmd in Hcmd'. injection Hcmd' as <-.
  cbv zeta. rewrite Heq. cbv zeta. cbn [subprocess_run with_runtime].
  destruct (process R (runs w) _ _ timeout) as [rc ob eb| |reason];
    cbn [run_answer].
  - destruct (decode R ob) as [so|msg].
    + destruct (decode R eb) as [se|msg].
      * eexists. split; [reflexivity|]. cbn [fst o_status o_error o_exit_code].
        split; [intros ->; reflexivity|]. split; [|reflexivity].
        intros Hrc. apply Z.eqb_neq in Hrc. rewrite Hrc. split; reflexivity.
      * eexists. split; [reflexivity|]. cbn. repeat split.
    + eexists. split; [reflexivity|]. cbn. repeat split.
  - intros Hnum. destruct timeout as [|t| | |]; try discriminate Hnum.
    destruct (times_1000_number (with_runtime R E) t) as [ms Hms]. rewrite Hms.
    eexists. split; [reflexivity|]. cbn. repeat split.
  - eexists. split; [reflexivity|]. cbn. repeat split.
Qed.

End Classification.

Lemma execute_code_classifies_processes_witness :
  let env := with_runtime hello_runtime
               (demo_env (PDict hello_job) hello_run store_up) in
  let code := PStr (lit "print('hello world')") in
  let ran := execute_code env (PStr (lit "python")) code (PInt 5) initial_world in
  trace (snd ran)
    = trace initial_world
      ++ [EvRun (docker_prefix (lit "python:3.11-alpine")
                 ++ [PStr (lit "python"); PStr (lit "-c"); code])
            PNone (PInt 5)] /\
  exists out,
    fst ran = Ok out /\ o_status out = SUCCESS /\ o_exit_code out = 0.
Proof.
  cbv zeta.
  assert (Htrace :
    trace (snd (execute_code
                  (with_runtime hello_runtime
                     (demo_env (PDict hello_job) hello_run store_up))
                  (PStr (lit "python")) (PStr (lit "print('hello world')"))
                  (PInt 5) initial_world))
    = trace initial_world
      ++ [EvRun (docker_prefix (lit "python:3.11-alpine")
                 ++ [PStr (lit "python"); PStr (lit "-c");
                     PStr (lit "print('hello world')")])
            PNone (PInt 5)]) by (vm_compute; reflexivity).
  split; [exact Htrace|].
  destruct (execute_code_classifies_processes
              (demo_env (PDict hello_job) hello_run store_up) hello_runtime
              (PStr (lit "python")) (PStr (lit "print('hello world')"))
              (PInt 5) initial_world _ _ Htrace)
    as (out & Hout & Hok & _ & Hexit).
  exists out. split; [exact Hout|].
  split; [apply Hok; reflexivity | exact Hexit].
Defined.

(** C2 as stated fails on two runs of a valid job. A program that exits
    with code 0 within the timeout after writing a byte that is not UTF-8
    is classified ERROR with exit code -1, not SUCCESS: in text mode the
    decoding error is raised by [subprocess.run] inside the [try]. And a
    sandbox that the docker client fails to launch is reported with the
    client's exit code 125 and its stderr, not with an internal-error
    message and exit code -1: without [check], a failed client is a
    completed process. *)
Lemma execute_code_exit_code_0_is_not_always_success :
  let env := demo_env (PDict hello_job) hello_run store_up in
  process byte_ff_runtime 0 [] PNone (PInt 5) = Exited 0 [255%N] [] /\
  fst (execute_code (with_runtime byte_ff_runtime env)
         (PStr (lit "python")) byte_ff_code (PInt 5) initial_world)
  = Ok {| o_status := ERROR;
          o_output := [];
          o_error := lit "Internal execution error: 'utf-8' codec can't decode byte 0xff in position 0: invalid start byte";
          o_execution_time_ms := PInt 42;
          o_exit_code := -1 |} /\
  fst (execute_code (with_runtime daemon_down_runtime env)
         (PStr (lit "python")) (PStr (lit "print('hello world')")) (PInt 5)
         initial_world)
  = Ok {| o_status := ERROR;
          o_output := [];
          o_error := lit "docker: Cannot connect to the Docker daemon at unix:///var/run/docker.sock.";
          o_execution_time_ms := PInt 42;
          o_exit_code := 125 |}.
Proof.
  cbv zeta. split; [reflexivity|]. split; vm_compute; reflexivity.
Qed.



(** ** Result writer *)

Section ResultWriter.

Variable E : Env.

(** The world after the two clock reads of [write_result]. *)
Lemma write_result_unfold job_id r meta w :
  write_result E job_id r meta w =
    put_with_retry E
      (make_item E job_id r meta (utcnow E (clock_reads w))
         (utcnow E (S (clock_reads w))))
      3 [0; 1; 2]
      {| table := table w; trace := trace w; runs := runs w; puts := puts w;
         clock_reads := S (S (clock_reads w)); flag_reads := flag_reads w |}.
Proof. reflexivity. Qed.

(** One turn of the retry loop. *)
Lemma put_with_retry_step item max_retries attempt rest w :
  put_with_retry E item max_retries (attempt :: rest) w =
    let outcome := put_answer E item (puts w) in
    let w' := record_put item outcome w in
    match outcome with
    | PutOk => (Ok true, w')
    | PutClientError =>
        if attempt <? max_retries - 1 then
          put_with_retry E item max_retries rest (emit (EvSleep (2 ^ attempt)) w')
        else (Ok false, w')
    | PutException msg => (Raise (OtherException msg), w')
    end.
Proof.
  cbn [put_with_retry]. unfold bind at 1, try_except, bind at 1, table_put_item.
  cbv zeta. destruct (put_answer E item (puts w)); try reflexivity.
  destruct (attempt <? max_retries - 1); reflexivity.
Qed.

(** C5, amended: [write_result] makes at most 3 put attempts and stops at
    the first that succeeds, returning True. After a first attempt refused
    with a ClientError it sleeps 1s, after a second 2s (2^attempt); after
    the third it does not sleep, so no 4s interval ever occurs, and it
    returns False without raising. Any other exception of the store is not
    caught. The cases below follow the answers of the store to the three
    attempts. *)
Theorem write_result_retries job_id r meta w :
  let item := make_item E job_id r meta (utcnow E (clock_reads w))
                (utcnow E (S (clock_reads w))) in
  let n := puts w in
  let res := write_result E job_id r meta w in
  let put o := EvPut item o in
  (puts w < puts (snd res) <= puts w + 3)%nat /\
  match put_answer E item n, put_answer E item (S n),
        put_answer E item (S (S n)) with
  | PutOk, _, _ =>
      fst res = Ok true /\ trace (snd res) = trace w ++ [put PutOk]
  | PutClientError, PutOk, _ =>
      fst res = Ok true /\
      trace (snd res) = trace w ++ [put PutClientError; EvSleep 1; put PutOk]
  | PutClientError, PutClientError, PutOk =>
      fst res = Ok true /\
      trace (snd res) = trace w ++ [put PutClientError; EvSleep 1;
                                    put PutClientError; EvSleep 2; put PutOk]
  | PutClientError, PutClientError, PutClientError =>
      fst res = Ok false /\
      trace (snd res) = trace w ++ [put PutClientError; EvSleep 1;
                                    put PutClientError; EvSleep 2;
                                    put PutClientError]
  | PutException msg, _, _ =>
      fst res = Raise (OtherException msg) /\
      trace (snd res) = trace w ++ [put (PutException msg)]
  | PutClientError, PutException msg, _ =>
      fst res = Raise (OtherException msg) /\
      trace (snd res) = trace w ++ [put PutClientError; EvSleep 1;
                                    put (PutException msg)]
  | PutClientError, PutClientError, PutException msg =>
      fst res = Raise (OtherException msg) /\
      trace (snd res) = trace w ++ [put PutClientError; EvSleep 1;
                                    put PutClientError; EvSleep 2;
                                    put (PutException msg)]
  end.
Proof.
  intros item n res put. subst res.
  rewrite write_result_unfold. fold item.
  rewrite put_with_retry_step. cbn [puts]. fold n.
  destruct (put_answer E item n) as [| |m0];
    [split; [cbn; lia | split; reflexivity] |
    | split; [cbn; lia | split; reflexivity]].
  change (0 <? 3 - 1) with true. cbv iota. change (2 ^ 0) with 1.
  rewrite put_with_retry_step. cbn [puts emit record_put].
  destruct (put_answer E item (S n)) as [| |m1];
    [split; [cbn; lia | split; cbn; [reflexivity | now rewrite <- !app_assoc]]
    |
    | split; [cbn; lia | split; cbn; [reflexivity | now rewrite <- !app_assoc]]].
  change (1 <? 3 - 1) with true. cbv iota. change (2 ^ 1) with 2.
  rewrite put_with_retry_step. cbn [puts emit record_put].
  change (2 <? 3 - 1) with false. cbv iota.
  destruct (put_answer E item (S (S n))) as [| |m2];
    (split; [cbn; lia | split; cbn; [reflexivity | now rewrite <- !app_assoc]]).
Qed.

(** The retry loop reads no clock, and changes the table only by its
    successful put, which replaces the record stored under the job id. *)
Lemma put_with_retry_table item max_retries attempts w :
  let res := put_with_retry E item max_retries attempts w in
  clock_reads (snd res) = clock_reads w /\
  (fst res = Ok true ->
     exists k, i_job_id item = PStr k /\
               table (snd res) = <[k := item]> (table w)) /\
  (fst res <> Ok true -> table (snd res) = table w).
Proof.
  revert w. induction attempts as [|attempt rest IH]; intros w; cbv zeta.
  - cbn. split; [reflexivity|]. split; [discriminate | reflexivity].
  - rewrite put_with_retry_step. cbv zeta.
    destruct (put_answer E item (puts w)) eqn:Hans.
    + cbn [fst snd table clock_reads record_put].
      split; [reflexivity|]. split; [|congruence].
      intros _. unfold put_answer in Hans.
      destruct (i_job_id item) as [| |k| |] eqn:Hk;
        try (destruct (put_item E (puts w)); discriminate Hans).
      exists k. split; reflexivity.
    + destruct (attempt <? max_retries - 1).
      * specialize (IH (emit (EvSleep (2 ^ attempt)) (record_put item PutClientError w))).
        cbv zeta in IH. cbn [table clock_reads emit record_put] in IH. exact IH.
      * cbn [fst snd table clock_reads record_put].
        split; [reflexivity|]. split; [discriminate | reflexivity].
    + cbn [fst snd table clock_reads record_put].
      split; [reflexivity|]. split; [discriminate | reflexivity].
Qed.

(** A successful [write_result] stores exactly the item it built. *)
Lemma write_result_stores k r meta w w1 :
  write_result E (PStr k) r meta w = (Ok true, w1) ->
  table w1 = <[k := make_item E (PStr k) r meta (utcnow E (clock_reads w))
                      (utcnow E (S (clock_reads w)))]> (table w) /\
  clock_reads w1 = S (S (clock_reads w)).
Proof.
  rewrite write_result_unfold. intros Hw.
  match type of Hw with put_with_retry E ?it ?mr ?att ?w0 = _ =>
    pose proof (put_with_retry_table it mr att w0) as Hput end.
  cbv zeta in Hput. rewrite Hw in Hput. cbn [fst snd table clock_reads] in Hput.
  destruct Hput as (Hclock & Hok & _).
  destruct (Hok eq_refl) as (k' & Hk & Htable). simpl in Hk.
  injection Hk as <-. split; assumption.
Qed.

(** C6, amended: writing the same outcome for the same job twice replaces
    the record of the first write by the record of the second, whatever the
    table held before, and leaves every other record alone. The two records
    agree on every field except the completion timestamp and the ttl, which
    are stamped from the clock at each write; when those stamps coincide the
    table after the second write is the table after the first. *)
Theorem write_result_twice k r meta w w1 w2 :
  write_result E (PStr k) r meta w = (Ok true, w1) ->
  write_result E (PStr k) r meta w1 = (Ok true, w2) ->
  exists item1 item2,
    table w1 = <[k := item1]> (table w) /\
    table w2 = <[k := item2]> (table w) /\
    (forall k', k' <> k -> table w2 !! k' = table w !! k') /\
    i_job_id item2 = i_job_id item1 /\
    i_status item2 = i_status item1 /\
    i_output item2 = i_output item1 /\
    i_error item2 = i_error item1 /\
    i_execution_time_ms item2 = i_execution_time_ms item1 /\
    i_exit_code item2 = i_exit_code item1 /\
    i_language item2 = i_language item1 /\
    i_worker_id item2 = i_worker_id item1 /\
    i_timestamp item1 = isoformat E (utcnow E (clock_reads w)) /\
    i_timestamp item2 = isoformat E (utcnow E (S (S (clock_reads w)))) /\
    i_ttl item1 = timestamp_int E (utcnow E (S (clock_reads w)) + SEVEN_DAYS) /\
    i_ttl item2
      = timestamp_int E (utcnow E (S (S (S (clock_reads w)))) + SEVEN_DAYS) /\
    (i_timestamp item2 = i_timestamp item1 -> i_ttl item2 = i_ttl item1 ->
       table w2 = table w1).
Proof.
  intros H1 H2.
  destruct (write_result_stores _ _ _ _ _ H1) as [Ht1 Hc1].
  destruct (write_result_stores _ _ _ _ _ H2) as [Ht2 _].
  rewrite Hc1 in Ht2. rewrite Ht1 in Ht2. rewrite insert_insert_eq in Ht2.
  do 2 eexists. split; [exact Ht1|]. split; [exact Ht2|].
  split.
  { intros k' Hk'. rewrite Ht2. now apply lookup_insert_ne. }
  repeat (split; [reflexivity|]).
  intros Hts Httl. rewrite Ht1, Ht2. f_equal.
  unfold make_item in *. cbn [i_timestamp i_ttl] in Hts, Httl.
  now rewrite Hts, Httl.
Qed.

End ResultWriter.

(** C5 as stated lists a 4s interval and promises that no exception
    leaves the writer. With the store refusing all three attempts the
    writer sleeps 1s and 2s only and gives up; with the store unreachable,
    which boto3 reports by an exception that is not a ClientError, the
    first attempt's exception leaves [write_result]. *)
Lemma write_result_sleeps_1s_2s_only :
  let refused := write_result (demo_env (PDict hello_job) hello_run store_down)
                   (PStr (lit "job-1")) hello_outcome hello_job initial_world in
  let unreachable :=
    write_result (demo_env (PDict hello_job) hello_run store_unreachable)
      (PStr (lit "job-1")) hello_outcome hello_job initial_world in
  fst refused = Ok false /\
  slept (trace (snd refused)) = [1; 2] /\
  ~ In 4 (slept (trace (snd refused))) /\
  length (put_items (trace (snd refused))) = 3%nat /\
  fst unreachable
    = Raise (OtherException (lit "Could not connect to the endpoint URL")).
Proof.
  cbv zeta. split; [vm_compute; reflexivity|].
  split; [vm_compute; reflexivity|].
  split; [|split; vm_compute; reflexivity].
  vm_compute. intros [H|[H|[]]]; discriminate H.
Qed.

(** C6 as stated fails when the clock moves between the two writes: the
    second record carries a later timestamp and ttl than the first. *)
Lemma second_write_changes_record :
  let env := demo_env (PDict hello_job) hello_run store_up in
  let k := lit "job-1" in
  let first := write_result env (PStr k) hello_outcome hello_job initial_world in
  let second := write_result env (PStr k) hello_outcome hello_job (snd first) in
  fst first = Ok true /\ fst second = Ok true /\
  (i_timestamp <$> table (snd first) !! k) = Some (lit "1700000000") /\
  (i_timestamp <$> table (snd second) !! k) = Some (lit "1700000060") /\
  table (snd second) !! k <> table (snd first) !! k /\
  table (snd second) <> table (snd first).
Proof.
  cbv zeta.
  split; [vm_compute; reflexivity|].
  split; [vm_compute; reflexivity|].
  split; [vm_compute; reflexivity|].
  split; [vm_compute; reflexivity|].
  assert (Hdiff : table (snd (write_result (demo_env (PDict hello_job) hello_run store_up)
                     (PStr (lit "job-1")) hello_outcome hello_job
                     (snd (write_result (demo_env (PDict hello_job) hello_run store_up)
                        (PStr (lit "job-1")) hello_outcome hello_job initial_world))))
                   !! lit "job-1"
                 <> table (snd (write_result (demo_env (PDict hello_job) hello_run store_up)
                     (PStr (lit "job-1")) hello_outcome hello_job initial_world))
                   !! lit "job-1").
  { vm_compute. intros H. discriminate H. }
  split; [exact Hdiff|].
  intros Heq. apply Hdiff. now rewrite Heq.
Qed.

Lemma write_result_twice_witness :
  let env := demo_env (PDict hello_job) hello_run store_up in
  let k := lit "job-1" in
  let first := write_result env (PStr k) hello_outcome hello_job initial_world in
  let second := write_result env (PStr k) hello_outcome hello_job (snd first) in
  first = (Ok true, snd first) /\
  second = (Ok true, snd second) /\
  table (snd second) !! lit "job-9" = None.
Proof.
  cbv zeta.
  assert (H1 : write_result (demo_env (PDict hello_job) hello_run store_up)
                 (PStr (lit "job-1")) hello_outcome hello_job initial_world
               = (Ok true,
                  snd (write_result (demo_env (PDict hello_job) hello_run store_up)
                         (PStr (lit "job-1")) hello_outcome hello_job initial_world)))
    by (vm_compute; reflexivity).
  assert (H2 : write_result (demo_env (PDict hello_job) hello_run store_up)
                 (PStr (lit "job-1")) hello_outcome hello_job
                 (snd (write_result (demo_env (PDict hello_job) hello_run store_up)
                         (PStr (lit "job-1")) hello_outcome hello_job initial_world))
               = (Ok true,
                  snd (write_result (demo_env (PDict hello_job) hello_run store_up)
                         (PStr (lit "job-1")) hello_outcome hello_job
                         (snd (write_result (demo_env (PDict hello_job) hello_run store_up)
                                 (PStr (lit "job-1")) hello_outcome hello_job
                                 initial_world)))))
    by (vm_compute; reflexivity).
  split; [exact H1|]. split; [exact H2|].
  destruct (write_result_twice _ _ _ _ _ _ _ H1 H2)
    as (item1 & item2 & _ & _ & Hother & _).
  rewrite (Hother (lit "job-9")); [reflexivity|].
  intros Heq. discriminate Heq.
Defined.

(** ** Validation *)

Section Validation.

Variable E : Env.

(** A job that carries the three required fields, a whitelisted language
    and a code of admissible length reaches the timeout test. *)
Lemma validate_job_reaches_timeout job (l image : pystr) code n :
  is_Some (job !! lit "job_id") ->
  job !! lit "language" = Some (PStr l) ->
  assoc l LANGUAGE_IMAGES = Some image ->
  job !! lit "code" = Some code ->
  py_len code = Ok n ->
  n <= MAX_CODE_SIZE ->
  validate_job E job =
    let timeout := dict_get job (lit "timeout") (PInt MAX_EXECUTION_TIME) in
    if negb (is_number timeout) || timeout_out_of_range timeout
    then Ok (false, Some msg_invalid_timeout)
    else Ok (true, None).
Proof.
  intros [j Hj] Hl Himg Hc Hn Hle.
  unfold validate_job, first_missing, getitem. rewrite Hj, Hl, Hc.
  cbn [rbind in_LANGUAGE_IMAGES]. rewrite Himg. cbn [negb rbind].
  rewrite Hn. cbn [rbind].
  destruct (MAX_CODE_SIZE <? n) eqn:Hlt; [apply Z.ltb_lt in Hlt; lia|].
  reflexivity.
Qed.

Lemma timeout_accepted_test (v : pyval) :
  timeout_accepted v <->
  negb (is_number v) || timeout_out_of_range v = false.
Proof.
  destruct v as [|[b|z|[q|neg|]]|s|l|d]; cbn;
    try (split; [tauto | discriminate]).
  - destruct b; cbn; split; try lia; try discriminate; reflexivity.
  - unfold MAX_EXECUTION_TIME. split.
    + intros [H0 H10]. apply orb_false_iff. split.
      * apply Z.leb_gt. lia.
      * apply Z.ltb_ge. lia.
    + intros H. apply orb_false_iff in H as [H0 H10].
      apply Z.leb_gt in H0. apply Z.ltb_ge in H10. lia.
  - unfold MAX_EXECUTION_TIME. split.
    + intros [H0 H10]. apply orb_false_iff. split.
      * destruct (Qle_bool q (inject_Z 0)) eqn:Hq; [|reflexivity].
        apply Qle_bool_iff in Hq. exfalso. eapply Qlt_not_le; eassumption.
      * apply negb_false_iff. now apply Qle_bool_iff.
    + intros H. apply orb_false_iff in H as [H0 H10].
      apply negb_false_iff in H10. apply Qle_bool_iff in H10.
      split; [|exact H10].
      apply Qnot_le_lt. intros Hle. apply Qle_bool_iff in Hle. congruence.
  - destruct neg; cbn; split; try tauto; discriminate.
  - split; [reflexivity | tauto].
Qed.

(** C4, amended: [validate_job] accepts a job's timeout exactly when it is
    an int or float [t] with [0 < t <= 10], or a float NaN; on ints this is
    [1 <= t <= 10], the boundary 10 is accepted and every value above it is
    refused, but a float strictly between 0 and 1 is accepted. Every other
    timeout is refused with the message "Invalid timeout. Must be 1-10
    seconds". A missing timeout counts as 10. *)
Theorem validate_job_timeout job (l image : pystr) code n :
  is_Some (job !! lit "job_id") ->
  job !! lit "language" = Some (PStr l) ->
  assoc l LANGUAGE_IMAGES = Some image ->
  job !! lit "code" = Some code ->
  py_len code = Ok n ->
  n <= MAX_CODE_SIZE ->
  let timeout := dict_get job (lit "timeout") (PInt MAX_EXECUTION_TIME) in
  (timeout_accepted timeout -> validate_job E job = Ok (true, None)) /\
  (~ timeout_accepted timeout ->
     validate_job E job
       = Ok (false, Some (lit "Invalid timeout. Must be 1-10 seconds"))) /\
  (forall z, timeout = PInt z ->
     (validate_job E job = Ok (true, None) <-> 1 <= z <= 10)) /\
  (forall q, timeout = PNum (NFloat (FFin q)) ->
     (validate_job E job = Ok (true, None)
      <-> (inject_Z 0 < q)%Q /\ (q <= inject_Z 10)%Q)).
Proof.
  intros Hj Hl Himg Hc Hn Hle timeout.
  pose proof (validate_job_reaches_timeout job l image code n Hj Hl Himg Hc Hn Hle)
    as Hv.
  cbv zeta in Hv. fold timeout in Hv.
  pose proof (timeout_accepted_test timeout) as Hiff.
  assert (Hyes : timeout_accepted timeout -> validate_job E job = Ok (true, None)).
  { intros Ha. apply Hiff in Ha. now rewrite Hv, Ha. }
  assert (Hno : ~ timeout_accepted timeout ->
                validate_job E job = Ok (false, Some msg_invalid_timeout)).
  { intros Ha. rewrite Hv.
    destruct (negb (is_number timeout) || timeout_out_of_range timeout) eqn:Ht;
      [reflexivity|]. exfalso. apply Ha, Hiff. reflexivity. }
  assert (Hback : validate_job E job = Ok (true, None) -> timeout_accepted timeout).
  { intros Hok. apply Hiff.
    destruct (negb (is_number timeout) || timeout_out_of_range timeout) eqn:Ht;
      [|reflexivity]. rewrite Hv in Hok. discriminate Hok. }
  split; [exact Hyes|]. split; [exact Hno|]. split.
  - intros z Hz. split.
    + intros Hok. apply Hback in Hok. rewrite Hz in Hok. cbn in Hok. lia.
    + intros Hz'. apply Hyes. rewrite Hz. cbn. lia.
  - intros q Hq. split.
    + intros Hok. apply Hback in Hok. now rewrite Hq in Hok.
    + intros Hq'. apply Hyes. now rewrite Hq.
Qed.

(** A code without a length (None or a number) makes [len] raise, and the
    exception leaves [validate_job]. *)
Lemma validate_job_unsized_code job (l image : pystr) code :
  is_Some (job !! lit "job_id") ->
  job !! lit "language" = Some (PStr l) ->
  assoc l LANGUAGE_IMAGES = Some image ->
  job !! lit "code" = Some code ->
  py_len code = Raise TypeError ->
  validate_job E job = Raise TypeError.
Proof.
  intros [j Hj] Hl Himg Hc Hn.
  unfold validate_job, first_missing, getitem. rewrite Hj, Hl, Hc.
  cbn [rbind in_LANGUAGE_IMAGES]. rewrite Himg. cbn [negb rbind].
  now rewrite Hn.
Qed.

End Validation.

(** C4 as stated fails below 1: a timeout of half a second is a float
    outside [1 <= t <= 10], and [validate_job] accepts it. *)
Lemma half_second_timeout_is_accepted :
  dict_get half_second_job (lit "timeout") (PInt MAX_EXECUTION_TIME)
    = PNum (NFloat (FFin (1 # 2))) /\
  ~ timeout_in_stated_range (PNum (NFloat (FFin (1 # 2)))) /\
  validate_job (demo_env (PDict half_second_job) hello_run store_up)
    half_second_job = Ok (true, None).
Proof.
  split; [vm_compute; reflexivity|].
  split; [|vm_compute; reflexivity].
  cbn. intros [Hlow _]. revert Hlow. unfold Qle. cbn. lia.
Qed.

Lemma validate_job_timeout_witness :
  is_Some (hello_job !! lit "job_id") /\
  hello_job !! lit "language" = Some (PStr (lit "python")) /\
  assoc (lit "python") LANGUAGE_IMAGES = Some (lit "python:3.11-alpine") /\
  hello_job !! lit "code" = Some (PStr (lit "print('hello world')")) /\
  py_len (PStr (lit "print('hello world')")) = Ok 20 /\
  20 <= MAX_CODE_SIZE /\
  validate_job (demo_env (PDict hello_job) hello_run store_up) hello_job
    = Ok (true, None).
Proof.
  assert (Hj : is_Some (hello_job !! lit "job_id"))
    by (exists (PStr (lit "job-1")); vm_compute; reflexivity).
  assert (Hl : hello_job !! lit "language" = Some (PStr (lit "python")))
    by (vm_compute; reflexivity).
  assert (Hc : hello_job !! lit "code" = Some (PStr (lit "print('hello world')")))
    by (vm_compute; reflexivity).
  assert (Hle : 20 <= MAX_CODE_SIZE) by (unfold MAX_CODE_SIZE; lia).
  repeat (split; [first [assumption | reflexivity]|]).
  destruct (validate_job_timeout (demo_env (PDict hello_job) hello_run store_up)
              hello_job (lit "python") (lit "python:3.11-alpine")
              (PStr (lit "print('hello world')")) 20 Hj Hl eq_refl Hc eq_refl Hle)
    as (_ & _ & Hint & _).
  apply (Hint 5); [vm_compute; reflexivity | lia].
Defined.

(** ** Message processing *)

Section Consumer.

Variable E : Env.

(** The call of [sqs.delete_message] is recorded whatever its answer. *)
Lemma delete_message_world rh w :
  snd (delete_message E rh w) = emit (EvDelete rh) w.
Proof. reflexivity. Qed.

(** [delete_message] returns, or raises what the client raised. *)
Lemma delete_message_result rh w :
  fst (delete_message E rh w)
  = match sqs_delete_message E (length (deleted (trace w))) with
    | DeleteException msg => Raise (OtherException msg)
    | _ => Ok tt
    end.
Proof.
  unfold delete_message. cbn [fst].
  destruct (sqs_delete_message E _); reflexivity.
Qed.

(** The pipeline for a job that passed validation: execute, write, then
    delete the message; the value returned by [write_result] is dropped,
    and an exception of the delete is caught by the catch-all. *)
Lemma process_message_valid m job language code w :
  json_loads E (Body m) = Some (PDict job) ->
  validate_job E job = Ok (true, None) ->
  job !! lit "language" = Some language ->
  job !! lit "code" = Some code ->
  process_message E m w =
    let handler e w' :=
      match e with
      | JSONDecodeError => delete_message E (ReceiptHandle m) w'
      | _ => (Ok tt, w')
      end in
    match execute_code E language code
            (dict_get job (lit "timeout") (PInt MAX_EXECUTION_TIME)) w with
    | (Ok r, w1) =>
        match write_result E (dict_get job (lit "job_id") (PStr (lit "unknown")))
                r job w1 with
        | (Ok _, w2) => (Ok tt, emit (EvDelete (ReceiptHandle m)) w2)
        | (Raise e, w2) => handler e w2
        end
    | (Raise e, w1) => handler e w1
    end.
Proof.
  intros Hjson Hvalid Hl Hc.
  unfold process_message, try_except, bind at 1, lift at 1, loads.
  rewrite Hjson. cbn [value_get].
  unfold bind at 1, lift at 1. unfold bind at 1, lift at 1. cbn [as_dict].
  unfold bind at 1, lift at 1. rewrite Hvalid. cbn [fst negb].
  unfold bind at 1, lift at 1, getitem. rewrite Hl.
  unfold bind at 1, lift at 1. rewrite Hc.
  unfold bind at 1. cbv zeta.
  destruct (execute_code E language code _ w) as [[r|e] w1].
  - unfold bind at 1.
    destruct (write_result E _ r job w1) as [[b|e] w2].
    + unfold delete_message.
      destruct (sqs_delete_message E _); reflexivity.
    + destruct e; reflexivity.
  - destruct e; reflexivity.
Qed.

(** An exception raised by [validate_job] (other than a JSON decoding
    error, which it cannot raise) reaches the catch-all of
    [process_message]: nothing is written, nothing is deleted. *)
Lemma process_message_validation_raises m job e w :
  json_loads E (Body m) = Some (PDict job) ->
  validate_job E job = Raise e ->
  e <> JSONDecodeError ->
  process_message E m w = (Ok tt, w).
Proof.
  intros Hjson Hraise He.
  unfold process_message, try_except, bind at 1, lift at 1, loads.
  rewrite Hjson. cbn [value_get].
  unfold bind at 1, lift at 1. unfold bind at 1, lift at 1. cbn [as_dict].
  unfold bind at 1, lift at 1. rewrite Hraise.
  destruct e; try reflexivity. now contradiction He.
Qed.

(** The retry loop only appends to the trace. *)
Lemma put_with_retry_trace item max_retries attempts w :
  exists evs,
    trace (snd (put_with_retry E item max_retries attempts w)) = trace w ++ evs.
Proof.
  revert w. induction attempts as [|attempt rest IH]; intros w.
  - exists []. cbn. now rewrite app_nil_r.
  - rewrite put_with_retry_step. cbv zeta.
    destruct (put_answer E item (puts w)); try (eexists; reflexivity).
    destruct (attempt <? max_retries - 1); [|eexists; reflexivity].
    destruct (IH (emit (EvSleep (2 ^ attempt)) (record_put item PutClientError w)))
      as [evs Hevs].
    rewrite Hevs. cbn [trace emit record_put]. rewrite <- !app_assoc.
    eexists. reflexivity.
Qed.

Lemma write_result_trace job_id r meta w :
  exists evs, trace (snd (write_result E job_id r meta w)) = trace w ++ evs.
Proof.
  rewrite write_result_unfold.
  match goal with |- context [put_with_retry E ?it ?mr ?att ?w0] =>
    destruct (put_with_retry_trace it mr att w0) as [evs Hevs] end.
  exists evs. exact Hevs.
Qed.

(** C9: a job without a timeout field, otherwise well formed, passes
    [validate_job], and [process_message] runs it in the sandbox with a
    timeout of 10 seconds. *)
Theorem missing_timeout_runs_with_maximum m job (l image : pystr) code n w :
  json_loads E (Body m) = Some (PDict job) ->
  is_Some (job !! lit "job_id") ->
  job !! lit "language" = Some (PStr l) ->
  assoc l LANGUAGE_IMAGES = Some image ->
  job !! lit "code" = Some code ->
  py_len code = Ok n ->
  n <= MAX_CODE_SIZE ->
  job !! lit "timeout" = None ->
  validate_job E job = Ok (true, None) /\
  exists command rest,
    assoc l (exec_commands code) = Some command /\
    trace (snd (process_message E m w))
      = trace w
        ++ EvRun (docker_prefix image ++ command)
                 (if is_go (PStr l) then code else PNone) (PInt 10)
        :: rest.
Proof.
  intros Hjson Hj Hl Himg Hc Hn Hle Ht.
  assert (Hdflt : dict_get job (lit "timeout") (PInt MAX_EXECUTION_TIME) = PInt 10)
    by (unfold dict_get; now rewrite Ht).
  assert (Hvalid : validate_job E job = Ok (true, None)).
  { rewrite (validate_job_reaches_timeout E job l image code n Hj Hl Himg Hc Hn Hle).
    cbv zeta. rewrite Hdflt. reflexivity. }
  split; [exact Hvalid|].
  rewrite (process_message_valid m job (PStr l) code w Hjson Hvalid Hl Hc).
  cbv zeta. rewrite Hdflt.
  destruct (execute_code_supported E l image code (PInt 10) w Himg)
    as (command & Hcmd & Hexec).
  exists command.
  assert (Hrun : exists r w1,
             execute_code E (PStr l) code (PInt 10) w = (Ok r, w1) /\
             trace w1 = trace w
                        ++ [EvRun (docker_prefix image ++ command)
                              (if is_go (PStr l) then code else PNone) (PInt 10)]).
  { rewrite Hexec. cbv zeta.
    destruct (subprocess_run E (runs w) _ _ (PInt 10));
      do 2 eexists; split; reflexivity. }
  destruct Hrun as (r & w1 & Hr & Htr). rewrite Hr.
  destruct (write_result_trace (dict_get job (lit "job_id") (PStr (lit "unknown")))
              r job w1) as [evs Hevs].
  destruct (write_result E _ r job w1) as [[b|e] w2]; cbn [snd] in Hevs.
  - exists (evs ++ [EvDelete (ReceiptHandle m)]). split; [exact Hcmd|].
    cbn [snd emit trace]. rewrite Hevs, Htr. now rewrite <- !app_assoc.
  - destruct e; eexists; (split; [exact Hcmd|]);
      rewrite ?delete_message_world;
      cbn [snd emit trace]; rewrite Hevs, Htr; rewrite <- !app_assoc;
      reflexivity.
Qed.

(** C10: when the code field holds a value without a length (None or a
    number) in a job whose other fields pass, [validate_job] raises a
    TypeError instead of returning a validation failure, and
    [process_message] leaves the world as it found it: no record written,
    no message deleted. *)
Theorem unsized_code_is_left_on_the_queue m job (l image : pystr) code w :
  json_loads E (Body m) = Some (PDict job) ->
  is_Some (job !! lit "job_id") ->
  job !! lit "language" = Some (PStr l) ->
  assoc l LANGUAGE_IMAGES = Some image ->
  job !! lit "code" = Some code ->
  (code = PNone \/ exists x, code = PNum x) ->
  validate_job E job = Raise TypeError /\
  process_message E m w = (Ok tt, w) /\
  deleted (trace (snd (process_message E m w))) = deleted (trace w) /\
  put_items (trace (snd (process_message E m w))) = put_items (trace w) /\
  table (snd (process_message E m w)) = table w.
Proof.
  intros Hjson Hj Hl Himg Hc Hcode.
  assert (Hlen : py_len code = Raise TypeError)
    by (destruct Hcode as [->|[x ->]]; reflexivity).
  pose proof (validate_job_unsized_code E job l image code Hj Hl Himg Hc Hlen)
    as Hraise.
  split; [exact Hraise|].
  assert (Hsame : process_message E m w = (Ok tt, w))
    by (apply (process_message_validation_raises m job TypeError w Hjson Hraise);
        discriminate).
  rewrite Hsame. repeat split.
Qed.

End Consumer.

Lemma missing_timeout_runs_with_maximum_witness :
  json_loads (demo_env (PDict no_timeout_job) hello_run store_up)
    (Body sample_message) = Some (PDict no_timeout_job) /\
  is_Some (no_timeout_job !! lit "job_id") /\
  no_timeout_job !! lit "language" = Some (PStr (lit "python")) /\
  assoc (lit "python") LANGUAGE_IMAGES = Some (lit "python:3.11-alpine") /\
  no_timeout_job !! lit "code" = Some (PStr (lit "print('hello world')")) /\
  py_len (PStr (lit "print('hello world')")) = Ok 20 /\
  20 <= MAX_CODE_SIZE /\
  no_timeout_job !! lit "timeout" = None /\
  validate_job (demo_env (PDict no_timeout_job) hello_run store_up)
    no_timeout_job = Ok (true, None).
Proof.
  assert (Hj : is_Some (no_timeout_job !! lit "job_id"))
    by (exists (PStr (lit "job-2")); vm_compute; reflexivity).
  assert (Hl : no_timeout_job !! lit "language" = Some (PStr (lit "python")))
    by (vm_compute; reflexivity).
  assert (Hc : no_timeout_job !! lit "code"
               = Some (PStr (lit "print('hello world')")))
    by (vm_compute; reflexivity).
  assert (Hle : 20 <= MAX_CODE_SIZE) by (unfold MAX_CODE_SIZE; lia).
  assert (Ht : no_timeout_job !! lit "timeout" = None)
    by (vm_compute; reflexivity).
  split; [reflexivity|]. split; [exact Hj|]. split; [exact Hl|].
  split; [reflexivity|]. split; [exact Hc|]. split; [reflexivity|].
  split; [exact Hle|]. split; [exact Ht|].
  exact (proj1 (missing_timeout_runs_with_maximum
                  (demo_env (PDict no_timeout_job) hello_run store_up)
                  sample_message no_timeout_job (lit "python")
                  (lit "python:3.11-alpine")
                  (PStr (lit "print('hello world')")) 20 initial_world
                  eq_refl Hj Hl eq_refl Hc eq_refl Hle Ht)).
Defined.

Lemma unsized_code_is_left_on_the_queue_witness :
  json_loads (demo_env (PDict numeric_code_job) hello_run store_up)
    (Body sample_message) = Some (PDict numeric_code_job) /\
  is_Some (numeric_code_job !! lit "job_id") /\
  numeric_code_job !! lit "language" = Some (PStr (lit "python")) /\
  assoc (lit "python") LANGUAGE_IMAGES = Some (lit "python:3.11-alpine") /\
  numeric_code_job !! lit "code" = Some (PInt 5) /\
  (PInt 5 = PNone \/ exists x, PInt 5 = PNum x) /\
  process_message (demo_env (PDict numeric_code_job) hello_run store_up)
    sample_message initial_world = (Ok tt, initial_world).
Proof.
  assert (Hj : is_Some (numeric_code_job !! lit "job_id"))
    by (exists (PStr (lit "job-4")); vm_compute; reflexivity).
  assert (Hl : numeric_code_job !! lit "language" = Some (PStr (lit "python")))
    by (vm_compute; reflexivity).
  assert (Hc : numeric_code_job !! lit "code" = Some (PInt 5))
    by (vm_compute; reflexivity).
  assert (Hcode : PInt 5 = PNone \/ exists x, PInt 5 = PNum x)
    by (right; exists (NInt 5); reflexivity).
  split; [reflexivity|]. split; [exact Hj|]. split; [exact Hl|].
  split; [reflexivity|]. split; [exact Hc|]. split; [exact Hcode|].
  exact (proj1 (proj2 (unsized_code_is_left_on_the_queue
                  (demo_env (PDict numeric_code_job) hello_run store_up)
                  sample_message numeric_code_job (lit "python")
                  (lit "python:3.11-alpine") (PInt 5) initial_world
                  eq_refl Hj Hl eq_refl Hc Hcode))).
Defined.

(** C1, at the failing input: the job is valid and runs, the store refuses
    all three puts so that [write_result] returns False and no record is
    stored, and [process_message] deletes the message all the same. *)
Theorem failed_write_is_still_acknowledged :
  let env := demo_env (PDict hello_job) hello_run store_down in
  let ran := execute_code env (PStr (lit "python"))
               (PStr (lit "print('hello world')")) (PInt 5) initial_world in
  let w := snd (process_message env sample_message initial_world) in
  validate_job env hello_job = Ok (true, None) /\
  fst ran = Ok hello_outcome /\
  fst (write_result env (PStr (lit "job-1")) hello_outcome hello_job (snd ran))
    = Ok false /\
  length (put_items (trace w)) = 3%nat /\
  table w = ∅ /\
  deleted (trace w) = [lit "receipt-1"].
Proof.
  cbv zeta. repeat split; vm_compute; reflexivity.
Qed.

(** ** Acknowledgement and the polling loop *)

Section Lifecycle.

Variable E : Env.

(** Whatever [write_result] returns, True or False, a valid job's message
    is deleted once the call has returned. *)
Lemma process_message_drops_write_result m job language code w r w1 b w2 :
  json_loads E (Body m) = Some (PDict job) ->
  validate_job E job = Ok (true, None) ->
  job !! lit "language" = Some language ->
  job !! lit "code" = Some code ->
  execute_code E language code
    (dict_get job (lit "timeout") (PInt MAX_EXECUTION_TIME)) w = (Ok r, w1) ->
  write_result E (dict_get job (lit "job_id") (PStr (lit "unknown"))) r job w1
    = (Ok b, w2) ->
  process_message E m w = (Ok tt, emit (EvDelete (ReceiptHandle m)) w2).
Proof.
  intros Hjson Hvalid Hl Hc Hrun Hwrite.
  rewrite (process_message_valid E m job language code w Hjson Hvalid Hl Hc).
  cbv zeta. now rewrite Hrun, Hwrite.
Qed.

(** [process_message] catches everything raised inside its [try]; what
    can leave it is an exception of the delete made by the handler of a
    JSON decoding error, which is no [ClientError]. *)
Lemma process_message_result m w :
  fst (process_message E m w) = Ok tt \/
  exists msg, fst (process_message E m w) = Raise (OtherException msg).
Proof.
  unfold process_message, try_except.
  match goal with |- context [match ?body w with _ => _ end] =>
    destruct (body w) as [[[]|e] w'] end.
  - left. reflexivity.
  - destruct e; try (left; reflexivity).
    rewrite delete_message_result.
    destruct (sqs_delete_message E _); [left| left |right; eexists]; reflexivity.
Qed.



(** A failed poll increments the counter; below the threshold the worker
    sleeps 5 seconds and goes on, at the threshold it leaves the loop
    without sleeping. *)
Lemma poll_once_error r c w :
  r = RecvClientError \/ r = RecvException ->
  poll_once E r c w =
    if 5 <=? c + 1 then (Ok (Break (c + 1)), w)
    else (Ok (Continue (c + 1)), emit (EvSleep 5) w).
Proof.
  intros [->| ->]; unfold poll_once, try_except, bind, receive_message, raise;
    unfold max_consecutive_errors; destruct (5 <=? c + 1); reflexivity.
Qed.

(** The loop stops as soon as a failed poll brings the counter to 5. *)
Lemma poll_loop_breaks_at_threshold r rest c w :
  r = RecvClientError \/ r = RecvException ->
  is_set E (flag_reads w) = false ->
  5 <= c + 1 ->
  fst (poll_loop E (r :: rest) c w) = Ok (TooManyErrors, c + 1).
Proof.
  intros Hr Hflag Hc.
  cbn [poll_loop]. unfold bind at 1, shutdown_is_set. rewrite Hflag.
  unfold bind. rewrite (poll_once_error r c _ Hr).
  apply Z.leb_le in Hc. now rewrite Hc.
Qed.

End Lifecycle.

(** C3, at the failing input: four failed polls, then a poll that succeeds
    but brings no message, then one more failed poll. The successful empty
    poll does not reset the counter, which is still 4 after it; the next
    failure makes it 5 and the worker leaves the loop, although the errors
    were not consecutive. Had the successful poll brought a message, the
    counter would have been reset and the worker would still be polling. *)
Theorem empty_poll_does_not_reset_counter :
  let env := demo_env (PDict hello_job) hello_run store_up in
  let failures := [RecvClientError; RecvClientError; RecvClientError;
                   RecvClientError] in
  fst (poll_queue env (failures ++ [RecvMessages []]) initial_world)
    = Ok (StillPolling, 4) /\
  fst (poll_queue env (failures ++ [RecvMessages []; RecvClientError])
         initial_world)
    = Ok (TooManyErrors, 5) /\
  slept (trace (snd (poll_queue env
                       (failures ++ [RecvMessages []; RecvClientError])
                       initial_world)))
    = [5; 5; 5; 5] /\
  fst (poll_queue env (failures ++ [RecvMessages [sample_message]])
         initial_world)
    = Ok (StillPolling, 0) /\
  fst (poll_queue env
         (failures ++ [RecvMessages [sample_message]; RecvClientError])
         initial_world)
    = Ok (StillPolling, 1).
Proof.
  cbv zeta. repeat split; vm_compute; reflexivity.
Qed.


(** * Further properties of the worker *)

(** ** Validation, check by check *)

Section ValidationChecks.

Variable E : Env.

Lemma first_missing_required job :
  first_missing job [lit "job_id"; lit "language"; lit "code"] = None <->
  is_Some (job !! lit "job_id") /\ is_Some (job !! lit "language") /\
  is_Some (job !! lit "code").
Proof.
  unfold first_missing.
  destruct (job !! lit "job_id") as [j|]; [|split; [discriminate|]].
  - destruct (job !! lit "language") as [l|]; [|split; [discriminate|]].
    + destruct (job !! lit "code") as [c|]; [|split; [discriminate|]].
      * split; [eauto | reflexivity].
      * intros (_ & _ & [x Hx]). discriminate Hx.
    + intros (_ & [x Hx] & _). discriminate Hx.
  - intros ([x Hx] & _). discriminate Hx.
Qed.

(** X1: [validate_job] names the first required field that is missing, in
    the order job_id, language, code, whatever else the job holds. *)
Theorem validate_job_names_first_missing_field job :
  (job !! lit "job_id" = None ->
   validate_job E job = Ok (false, Some (lit "Missing required field: job_id"))) /\
  (is_Some (job !! lit "job_id") -> job !! lit "language" = None ->
   validate_job E job = Ok (false, Some (lit "Missing required field: language"))) /\
  (is_Some (job !! lit "job_id") -> is_Some (job !! lit "language") ->
   job !! lit "code" = None ->
   validate_job E job = Ok (false, Some (lit "Missing required field: code"))).
Proof.
  unfold validate_job, first_missing. split; [|split].
  - intros ->. reflexivity.
  - intros [j ->] ->. reflexivity.
  - intros [j ->] [l ->] ->. reflexivity.
Qed.

(** X2: a job whose language is a string outside the whitelist, None or a
    number is refused with the message "Unsupported language: <language>.
    Supported: <the four languages>"; neither the code nor the timeout is
    looked at, so a code without a length raises nothing here. *)
Theorem validate_job_refuses_unlisted_language job language :
  is_Some (job !! lit "job_id") ->
  job !! lit "language" = Some language ->
  is_Some (job !! lit "code") ->
  in_LANGUAGE_IMAGES language = Ok false ->
  validate_job E job
    = Ok (false,
          Some (lit "Unsupported language: " ++ py_str E language
                ++ lit ". Supported: "
                ++ py_str E (PList [PStr (lit "python"); PStr (lit "javascript");
                                    PStr (lit "ruby"); PStr (lit "go")]))).
Proof.
  intros [j Hj] Hl [c Hc] Hin.
  unfold validate_job, first_missing, getitem. rewrite Hj, Hl, Hc.
  cbn [rbind]. rewrite Hin. reflexivity.
Qed.

(** X3: with the required fields present and a whitelisted language, the
    size check looks at the length of the code only: above 10240 the job is
    refused with "Code exceeds size limit of 10240 bytes" whatever its
    timeout, and at 10240 or below this message is never given. *)
Theorem validate_job_code_size_limit job (l image : pystr) code n :
  is_Some (job !! lit "job_id") ->
  job !! lit "language" = Some (PStr l) ->
  assoc l LANGUAGE_IMAGES = Some image ->
  job !! lit "code" = Some code ->
  py_len code = Ok n ->
  (10240 < n ->
   validate_job E job
     = Ok (false, Some (lit "Code exceeds size limit of 10240 bytes"))) /\
  (n <= 10240 ->
   validate_job E job
     <> Ok (false, Some (lit "Code exceeds size limit of 10240 bytes"))).
Proof.
  intros Hj Hl Himg Hc Hn. split.
  - intros Hbig. destruct Hj as [j Hj].
    unfold validate_job, first_missing, getitem. rewrite Hj, Hl, Hc.
    cbn [rbind in_LANGUAGE_IMAGES]. rewrite Himg. cbn [negb rbind].
    rewrite Hn. cbn [rbind].
    replace (MAX_CODE_SIZE <? n) with true
      by (symmetry; apply Z.ltb_lt; unfold MAX_CODE_SIZE; lia).
    reflexivity.
  - intros Hsmall.
    rewrite (validate_job_reaches_timeout E job l image code n Hj Hl Himg Hc Hn)
      by (unfold MAX_CODE_SIZE; lia).
    cbv zeta.
    destruct (negb (is_number _) || timeout_out_of_range _); intros Heq.
    + apply (f_equal (fun r => match r with
                               | Ok (_, Some m) => length m
                               | _ => 0%nat
                               end)) in Heq.
      vm_compute in Heq. discriminate Heq.
    + discriminate Heq.
Qed.

(** What an accepted job looks like. *)
Lemma validate_job_accepted job :
  validate_job E job = Ok (true, None) ->
  exists l image code n t,
    is_Some (job !! lit "job_id") /\
    job !! lit "language" = Some (PStr l) /\
    assoc l LANGUAGE_IMAGES = Some image /\
    job !! lit "code" = Some code /\
    py_len code = Ok n /\ n <= MAX_CODE_SIZE /\
    dict_get job (lit "timeout") (PInt MAX_EXECUTION_TIME) = PNum t /\
    timeout_accepted (PNum t).
Proof.
  intros Hv. unfold validate_job in Hv.
  destruct (first_missing job _) eqn:Hmiss; [discriminate Hv|].
  apply first_missing_required in Hmiss as (Hj & [lang Hl] & [code Hc]).
  unfold getitem in Hv. rewrite Hl, Hc in Hv. cbn [rbind] in Hv.
  destruct (in_LANGUAGE_IMAGES lang) as [[|]|e] eqn:Hin;
    cbn [rbind negb] in Hv; try discriminate Hv.
  destruct lang as [| |l| |]; try discriminate Hin.
  unfold in_LANGUAGE_IMAGES in Hin.
  destruct (assoc l LANGUAGE_IMAGES) as [image|] eqn:Himg; [|discriminate Hin].
  destruct (py_len code) as [n|e] eqn:Hn; cbn [rbind] in Hv; [|discriminate Hv].
  destruct (MAX_CODE_SIZE <? n) eqn:Hlt; [discriminate Hv|].
  apply Z.ltb_ge in Hlt.
  destruct (negb (is_number _) || timeout_out_of_range _) eqn:Ht;
    [discriminate Hv|].
  apply timeout_accepted_test in Ht.
  destruct (dict_get job (lit "timeout") (PInt MAX_EXECUTION_TIME)) as [|t| | |] eqn:Hd;
    try (now destruct Ht).
  exists l, image, code, n, t.
  split; [exact Hj|]. split; [exact Hl|]. split; [exact Himg|].
  split; [exact Hc|]. split; [exact Hn|]. split; [exact Hlt|].
  split; [reflexivity | exact Ht].
Qed.

(** The two shapes of what [validate_job] returns. *)
Lemma validate_job_shape job valid message :
  validate_job E job = Ok (valid, message) ->
  (valid = true /\ message = None) \/
  (valid = false /\ exists text, message = Some text).
Proof.
  unfold validate_job.
  destruct (first_missing job _).
  { intros H. injection H as <- <-. right. eauto. }
  destruct (getitem job (lit "language")) as [lang|]; cbn [rbind]; [|discriminate].
  destruct (in_LANGUAGE_IMAGES lang) as [[|]|]; cbn [rbind negb]; try discriminate.
  2: { intros H. injection H as <- <-. right. eauto. }
  destruct (getitem job (lit "code")) as [code|]; cbn [rbind]; [|discriminate].
  destruct (py_len code) as [n|]; cbn [rbind]; [|discriminate].
  destruct (MAX_CODE_SIZE <? n).
  { intros H. injection H as <- <-. right. eauto. }
  destruct (negb (is_number _) || timeout_out_of_range _);
    intros H; injection H as <- <-; [right; eauto | left; auto].
Qed.

(** X4: [validate_job] returns either (True, None) or (False, a message):
    a failure always comes with its message and a success with none, so
    the "Validation error: ..." text built from it never reads "None". *)
Theorem validate_job_result_shape job valid message :
  validate_job E job = Ok (valid, message) ->
  (valid = true /\ message = None) \/
  (valid = false /\ exists text, message = Some text).
Proof. apply validate_job_shape. Qed.

(** X5: an accepted job can be run: it carries a job_id, its language is
    one of the four whitelisted strings, its code has a length of at most
    10240, and its timeout (10 when absent) is a number that is neither
    [<= 0] nor [> 10]. *)
Theorem validate_job_accepts_only_runnable_jobs job :
  validate_job E job = Ok (true, None) ->
  is_Some (job !! lit "job_id") /\
  (exists l, job !! lit "language" = Some (PStr l) /\
             (l = lit "python" \/ l = lit "javascript" \/
              l = lit "ruby" \/ l = lit "go")) /\
  (exists code n, job !! lit "code" = Some code /\
                  py_len code = Ok n /\ 0 <= n <= 10240) /\
  (exists t, dict_get job (lit "timeout") (PInt 10) = PNum t /\
             num_le t 0 = false /\ num_gt t 10 = false).
Proof.
  intros Hv.
  destruct (validate_job_accepted job Hv)
    as (l & image & code & n & t & Hj & Hl & Himg & Hc & Hn & Hle & Hd & Ht).
  split; [exact Hj|]. split; [|split].
  - exists l. split; [exact Hl|].
    destruct (supported_language_cases l image Himg)
      as [[-> _]|[[-> _]|[[-> _]|[-> _]]]]; tauto.
  - exists code, n. split; [exact Hc|]. split; [exact Hn|].
    split; [|exact Hle].
    destruct code; cbn in Hn; try discriminate Hn; injection Hn as <-; lia.
  - exists t. split; [exact Hd|].
    apply timeout_accepted_test in Ht. cbn in Ht.
    now apply orb_false_iff in Ht.
Qed.

End ValidationChecks.

(** ** What each stage does to the world *)

Section Effects.

Variable E : Env.

(** [execute_code] touches neither the table nor the clock nor the
    shutdown flag; it either fails before the sandbox, changing nothing, or
    makes exactly one call of [subprocess.run]. *)
Lemma execute_code_effects language code timeout w :
  let w' := snd (execute_code E language code timeout w) in
  table w' = table w /\ puts w' = puts w /\
  clock_reads w' = clock_reads w /\ flag_reads w' = flag_reads w /\
  ((trace w' = trace w /\ runs w' = runs w) \/
   (exists cmd input,
      trace w' = trace w ++ [EvRun cmd input timeout] /\
      runs w' = S (runs w))).
Proof.
  unfold execute_code, try_except, bind, lift, start_timer, run_subprocess, ret.
  destruct (literal_getitem LANGUAGE_IMAGES language) as [image|e];
    [|cbn; tauto].
  destruct (literal_getitem (exec_commands code) language) as [command|e];
    [|cbn; tauto].
  destruct (last_item command) as [final|e].
  2: { destruct e; cbn; try tauto. destruct (times_1000 E timeout); cbn; tauto. }
  destruct (subprocess_run E (runs w) _ _ timeout) as [rc so se| |msg];
    try (cbn; repeat split; right; eauto).
  destruct (times_1000 E timeout); cbn; repeat split; right; eauto.
Qed.

(** The retry loop only puts and sleeps: at most one put per attempt, no
    sandbox run, no delete, no read of the shutdown flag. *)
Lemma put_with_retry_effects item max_retries attempts w :
  let w' := snd (put_with_retry E item max_retries attempts w) in
  runs w' = runs w /\ flag_reads w' = flag_reads w /\
  exists evs,
    trace w' = trace w ++ evs /\
    deleted evs = [] /\ commands_run evs = [] /\
    (length (put_items evs) <= length attempts)%nat /\
    Forall (fun i => i = item) (put_items evs).
Proof.
  revert w. induction attempts as [|attempt rest IH]; intros w; cbv zeta.
  - cbn. split; [reflexivity|]. split; [reflexivity|].
    exists []. rewrite app_nil_r. cbn.
    split; [reflexivity|]. split; [reflexivity|]. split; [reflexivity|].
    split; [lia | constructor].
  - rewrite put_with_retry_step. cbv zeta.
    assert (Hone : forall o, exists evs,
               trace (record_put item o w) = trace w ++ evs /\
               deleted evs = [] /\ commands_run evs = [] /\
               (length (put_items evs) <= length (attempt :: rest))%nat /\
               Forall (fun i => i = item) (put_items evs)).
    { intros o. exists [EvPut item o]. cbn.
      split; [reflexivity|]. split; [reflexivity|]. split; [reflexivity|].
      split; [lia|]. constructor; [reflexivity | constructor]. }
    destruct (put_answer E item (puts w)) eqn:Hans;
      try (cbn [snd]; split; [reflexivity|]; split; [reflexivity|]; apply Hone).
    destruct (attempt <? max_retries - 1);
      [|cbn [snd]; split; [reflexivity|]; split; [reflexivity|]; apply Hone].
    destruct (IH (emit (EvSleep (2 ^ attempt)) (record_put item PutClientError w)))
      as (Hr & Hf & evs & Ht & Hd & Hc & Hlen & Hall).
    split; [exact Hr|]. split; [exact Hf|].
    exists (EvPut item PutClientError :: EvSleep (2 ^ attempt) :: evs).
    split.
    { rewrite Ht. cbn [trace emit record_put]. now rewrite <- !app_assoc. }
    cbn. split; [exact Hd|]. split; [exact Hc|].
    split; [apply le_n_S; exact Hlen|].
    constructor; [reflexivity | exact Hall].
Qed.

Lemma write_result_effects job_id r meta w :
  let w' := snd (write_result E job_id r meta w) in
  runs w' = runs w /\ flag_reads w' = flag_reads w /\
  exists evs,
    trace w' = trace w ++ evs /\
    deleted evs = [] /\ commands_run evs = [] /\
    (length (put_items evs) <= 3)%nat /\
    Forall (fun i => i = make_item E job_id r meta (utcnow E (clock_reads w))
                          (utcnow E (S (clock_reads w))))
           (put_items evs).
Proof.
  rewrite write_result_unfold. cbv zeta.
  match goal with |- context [put_with_retry E ?it ?mr ?att ?w0] =>
    destruct (put_with_retry_effects it mr att w0)
      as (Hr & Hf & evs & Ht & Hd & Hc & Hlen & Hall) end.
  split; [exact Hr|]. split; [exact Hf|].
  exists evs. repeat split; assumption.
Qed.

(** Only an exception of the store that is not a ClientError leaves the
    retry loop. *)
Lemma put_with_retry_raises item max_retries attempts w e :
  fst (put_with_retry E item max_retries attempts w) = Raise e ->
  exists msg, e = OtherException msg.
Proof.
  revert w. induction attempts as [|attempt rest IH]; intros w.
  - discriminate.
  - rewrite put_with_retry_step. cbv zeta.
    destruct (put_answer E item (puts w)) as [| |msg].
    + discriminate.
    + destruct (attempt <? max_retries - 1); [apply IH | discriminate].
    + intros H. injection H as <-. eauto.
Qed.

Lemma write_result_raises job_id r meta w e :
  fst (write_result E job_id r meta w) = Raise e ->
  exists msg, e = OtherException msg.
Proof. rewrite write_result_unfold. apply put_with_retry_raises. Qed.

(** [execute_code] raises a KeyError or a TypeError, if anything. *)
Lemma execute_code_raises language code timeout w e :
  fst (execute_code E language code timeout w) = Raise e ->
  e = KeyError \/ e = TypeError.
Proof.
  unfold execute_code, try_except, bind, lift, start_timer, run_subprocess, ret.
  assert (Hget : forall A (d : list (pystr * A)) x,
             literal_getitem d language = Raise x -> x = KeyError \/ x = TypeError).
  { intros A d x. unfold literal_getitem.
    destruct language as [| |s| |]; try (intros H; injection H as <-; tauto).
    destruct (assoc s d); [discriminate|]. intros H; injection H as <-; tauto. }
  assert (Htimes : forall x, times_1000 E timeout = Raise x -> x = TypeError).
  { intros x. unfold times_1000.
    destruct timeout as [|[b|z|f]|s|l|d]; try discriminate;
      intros H; injection H as <-; reflexivity. }
  destruct (literal_getitem LANGUAGE_IMAGES language) as [image|x] eqn:H1.
  2: { cbn. intros H; injection H as <-. eapply Hget; eassumption. }
  destruct (literal_getitem (exec_commands code) language) as [command|x] eqn:H2.
  2: { cbn. intros H; injection H as <-. eapply Hget; eassumption. }
  destruct (last_item command) as [final|x] eqn:H3.
  2: { unfold last_item in H3. destruct (last command); [discriminate|].
       injection H3 as <-. cbn. discriminate. }
  destruct (subprocess_run E (runs w) _ _ timeout) as [rc so se| |msg];
    try (cbn; discriminate).
  destruct (times_1000 E timeout) as [ms|x] eqn:H4; cbn; [discriminate|].
  intros H; injection H as <-. right. now apply Htimes.
Qed.

(** The table after [write_result]: the job's record replaced when the
    call returns True, nothing changed otherwise. *)
Lemma write_result_table job_id r meta w :
  let res := write_result E job_id r meta w in
  (fst res = Ok true ->
   exists k, job_id = PStr k /\
     table (snd res)
       = <[k := make_item E job_id r meta (utcnow E (clock_reads w))
                  (utcnow E (S (clock_reads w)))]> (table w)) /\
  (fst res <> Ok true -> table (snd res) = table w).
Proof.
  rewrite write_result_unfold. cbv zeta.
  match goal with |- context [put_with_retry E ?it ?mr ?att ?w0] =>
    destruct (put_with_retry_table E it mr att w0) as (_ & Hok & Hko) end.
  split; [|exact Hko].
  intros Htrue. destruct (Hok Htrue) as (k & Hk & Ht). exists k.
  split; [exact Hk | exact Ht].
Qed.

(** X6: a call of [write_result] that returns True has stored, under the
    job id, a record that carries the outcome's status, output, error,
    duration and exit code, the job's language and this worker's id; a
    call that returns False or raises has left the table as it was. In
    both cases every other job's record is untouched. *)
Theorem write_result_stores_the_outcome_or_nothing k r meta w :
  let res := write_result E (PStr k) r meta w in
  (fst res = Ok true ->
   exists item,
     table (snd res) !! k = Some item /\
     i_job_id item = PStr k /\ i_status item = o_status r /\
     i_output item = o_output r /\ i_error item = o_error r /\
     i_execution_time_ms item = o_execution_time_ms r /\
     i_exit_code item = o_exit_code r /\
     i_language item = dict_get meta (lit "language") (PStr (lit "unknown")) /\
     i_worker_id item = WORKER_ID E) /\
  (fst res <> Ok true -> table (snd res) = table w) /\
  (forall k', k' <> k -> table (snd res) !! k' = table w !! k').
Proof.
  cbv zeta.
  destruct (write_result_table (PStr k) r meta w) as [Hok Hko].
  split; [|split].
  - intros Htrue. destruct (Hok Htrue) as (k0 & Hk0 & Ht).
    injection Hk0 as <-. eexists. rewrite Ht, lookup_insert_eq.
    split; [reflexivity|]. cbn. repeat split.
  - exact Hko.
  - intros k' Hne.
    assert (Hcase : fst (write_result E (PStr k) r meta w) = Ok true \/
                    fst (write_result E (PStr k) r meta w) <> Ok true)
      by (destruct (fst (write_result E (PStr k) r meta w)) as [[|]|e];
          [left; reflexivity | right; discriminate | right; discriminate]).
    destruct Hcase as [Htrue|Hfalse].
    + destruct (Hok Htrue) as (k0 & Hk0 & Ht). injection Hk0 as <-.
      rewrite Ht. now apply lookup_insert_ne.
    + now rewrite (Hko Hfalse).
Qed.

End Effects.

(** ** The paths of a delivery *)

Section Deliveries.

Variable E : Env.

(** The pipeline for a job that failed validation: write the ERROR record,
    then delete the message whatever the write returned. *)
Lemma process_message_invalid m job text w :
  json_loads E (Body m) = Some (PDict job) ->
  validate_job E job = Ok (false, Some text) ->
  process_message E m w =
    match write_result E (dict_get job (lit "job_id") (PStr (lit "unknown")))
            (validation_outcome (Some text)) job w with
    | (Ok _, w2) => (Ok tt, emit (EvDelete (ReceiptHandle m)) w2)
    | (Raise _, w2) => (Ok tt, w2)
    end.
Proof.
  intros Hjson Hinvalid.
  unfold process_message, try_except, bind at 1, lift at 1, loads.
  rewrite Hjson. cbn [value_get].
  unfold bind at 1, lift at 1. unfold bind at 1, lift at 1. cbn [as_dict].
  unfold bind at 1, lift at 1. rewrite Hinvalid. cbn [fst snd negb].
  unfold bind at 1.
  destruct (write_result E _ _ job w) as [[b|e] w2] eqn:Hw.
  { unfold delete_message. destruct (sqs_delete_message E _); reflexivity. }
  pose proof (write_result_raises E _ _ _ _ e (f_equal fst Hw)) as [msg ->].
  reflexivity.
Qed.

(** A body that is not JSON: the handler of the decoding error deletes the
    message, outside the [try]; what the delete raises leaves
    [process_message]. *)
Lemma process_message_malformed m w :
  json_loads E (Body m) = None ->
  process_message E m w = delete_message E (ReceiptHandle m) w.
Proof.
  intros Hjson.
  unfold process_message, try_except, bind at 1, lift at 1, loads.
  now rewrite Hjson.
Qed.

Lemma process_message_non_object m v w :
  json_loads E (Body m) = Some v ->
  (forall d, v <> PDict d) ->
  process_message E m w = (Ok tt, w).
Proof.
  intros Hjson Hv.
  unfold process_message, try_except, bind at 1, lift at 1, loads.
  rewrite Hjson.
  destruct v as [| | | |d]; try reflexivity.
  now contradiction (Hv d).
Qed.

(** An exception out of [validate_job] goes to the handlers of
    [process_message]. *)
Lemma process_message_validation_raised m job e w :
  json_loads E (Body m) = Some (PDict job) ->
  validate_job E job = Raise e ->
  process_message E m w =
    match e with
    | JSONDecodeError => delete_message E (ReceiptHandle m) w
    | _ => (Ok tt, w)
    end.
Proof.
  intros Hjson Hraise.
  unfold process_message, try_except, bind at 1, lift at 1, loads.
  rewrite Hjson. cbn [value_get].
  unfold bind at 1, lift at 1. unfold bind at 1, lift at 1. cbn [as_dict].
  unfold bind at 1, lift at 1. rewrite Hraise.
  destruct e; reflexivity.
Qed.

(** X7: a message whose body is not JSON is handed to
    [sqs.delete_message] at once, and that call is all that happens:
    nothing is run, nothing is written, and the table is as before.
    [process_message] returns when the delete succeeds or is refused with a
    ClientError; any other exception of the delete, made outside the [try],
    leaves [process_message]. *)
Theorem malformed_message_is_discarded m w :
  json_loads E (Body m) = None ->
  let w' := snd (process_message E m w) in
  fst (process_message E m w)
    = match sqs_delete_message E (length (deleted (trace w))) with
      | DeleteOk | DeleteClientError => Ok tt
      | DeleteException msg => Raise (OtherException msg)
      end /\
  trace w' = trace w ++ [EvDelete (ReceiptHandle m)] /\
  table w' = table w /\ runs w' = runs w /\ puts w' = puts w.
Proof.
  intros Hjson. cbv zeta.
  rewrite (process_message_malformed m w Hjson).
  split; [reflexivity|]. cbn. repeat split.
Qed.

(** X8: a message whose body is JSON but not an object (a list, a string,
    a number, null) makes [job.get] raise inside the try; the catch-all
    leaves the message on the queue and the world exactly as it was, so
    every redelivery does the same. *)
Theorem non_object_json_is_left_on_the_queue m v w :
  json_loads E (Body m) = Some v ->
  (forall d, v <> PDict d) ->
  process_message E m w = (Ok tt, w).
Proof. apply process_message_non_object. Qed.

(** X9: a job refused by [validate_job] is never run in the sandbox. Every
    put attempted for it carries an ERROR record whose error field is
    "Validation error: <message>", with empty output, exit code -1 and a
    duration of 0; and the message is deleted as soon as [write_result]
    returns, whether it returned True or False (it stays on the queue only
    when the store raised something other than a ClientError). *)
Theorem invalid_job_is_recorded_as_error_and_acknowledged m job text w :
  json_loads E (Body m) = Some (PDict job) ->
  validate_job E job = Ok (false, Some text) ->
  let w' := snd (process_message E m w) in
  let written := write_result E (dict_get job (lit "job_id") (PStr (lit "unknown")))
                   (validation_outcome (Some text)) job w in
  runs w' = runs w /\
  exists evs,
    trace w' = trace w ++ evs /\
    commands_run evs = [] /\
    Forall (fun i => i_status i = ERROR /\
                     i_error i = lit "Validation error: " ++ text /\
                     i_output i = [] /\ i_exit_code i = -1 /\
                     i_execution_time_ms i = PInt 0)
           (put_items evs) /\
    (forall b, fst written = Ok b -> deleted evs = [ReceiptHandle m]) /\
    (forall e, fst written = Raise e -> deleted evs = []).
Proof.
  intros Hjson Hinvalid. cbv zeta.
  rewrite (process_message_invalid m job text w Hjson Hinvalid).
  destruct (write_result_effects E
              (dict_get job (lit "job_id") (PStr (lit "unknown")))
              (validation_outcome (Some text)) job w)
    as (Hr & _ & evs & Ht & Hd & Hc & _ & Hall).
  assert (Hitems : Forall (fun i => i_status i = ERROR /\
                     i_error i = lit "Validation error: " ++ text /\
                     i_output i = [] /\ i_exit_code i = -1 /\
                     i_execution_time_ms i = PInt 0) (put_items evs)).
  { eapply Forall_impl; [exact Hall|]. intros i ->. cbn. repeat split. }
  destruct (write_result E _ _ job w) as [[b|e] w2]; cbn [fst snd] in *.
  - split; [exact Hr|].
    exists (evs ++ [EvDelete (ReceiptHandle m)]).
    split; [cbn [emit trace]; rewrite Ht; now rewrite <- app_assoc|].
    unfold commands_run, put_items, deleted in *.
    rewrite !omap_app, Hc, Hd. cbn. rewrite app_nil_r.
    split; [reflexivity|]. split; [exact Hitems|].
    split; [reflexivity | discriminate].
  - split; [exact Hr|].
    exists evs. split; [exact Ht|]. split; [exact Hc|]. split; [exact Hitems|].
    split; [discriminate | intros; exact Hd].
Qed.

End Deliveries.

Section Footprint.

Variable E : Env.

(** A delivery is at most one sandbox run, then at most three puts and two
    sleeps, then at most the delete of its own receipt handle. *)
Lemma process_message_stages m w :
  let w' := snd (process_message E m w) in
  exists evs1 evs2 evs3,
    trace w' = trace w ++ evs1 ++ evs2 ++ evs3 /\
    (evs1 = [] \/ exists cmd input timeout, evs1 = [EvRun cmd input timeout]) /\
    deleted evs2 = [] /\ commands_run evs2 = [] /\
    (length (put_items evs2) <= 3)%nat /\
    (evs3 = [] \/ evs3 = [EvDelete (ReceiptHandle m)]) /\
    flag_reads w' = flag_reads w /\
    runs w' = (runs w + length evs1)%nat /\
    (forall k,
       (forall job, json_loads E (Body m) = Some (PDict job) ->
                    dict_get job (lit "job_id") (PStr (lit "unknown")) <> PStr k) ->
       table w' !! k = table w !! k).
Proof.
  cbv zeta.
  assert (Hhandler : forall w0,
    (exists evs1 evs2,
       trace w0 = trace w ++ evs1 ++ evs2 /\
       (evs1 = [] \/ exists cmd input timeout, evs1 = [EvRun cmd input timeout]) /\
       deleted evs2 = [] /\ commands_run evs2 = [] /\
       (length (put_items evs2) <= 3)%nat /\
       flag_reads w0 = flag_reads w /\
       runs w0 = (runs w + length evs1)%nat /\
       (forall k,
          (forall job, json_loads E (Body m) = Some (PDict job) ->
                       dict_get job (lit "job_id") (PStr (lit "unknown")) <> PStr k) ->
          table w0 !! k = table w !! k)) ->
    forall w',
      w' = w0 \/ w' = emit (EvDelete (ReceiptHandle m)) w0 ->
    exists evs1 evs2 evs3,
      trace w' = trace w ++ evs1 ++ evs2 ++ evs3 /\
      (evs1 = [] \/ exists cmd input timeout, evs1 = [EvRun cmd input timeout]) /\
      deleted evs2 = [] /\ commands_run evs2 = [] /\
      (length (put_items evs2) <= 3)%nat /\
      (evs3 = [] \/ evs3 = [EvDelete (ReceiptHandle m)]) /\
      flag_reads w' = flag_reads w /\
      runs w' = (runs w + length evs1)%nat /\
      (forall k,
         (forall job, json_loads E (Body m) = Some (PDict job) ->
                      dict_get job (lit "job_id") (PStr (lit "unknown")) <> PStr k) ->
         table w' !! k = table w !! k)).
  { intros w0 (evs1 & evs2 & Ht & H1 & Hd & Hc & Hp & Hf & Hr & Htab) w' [-> | ->];
      exists evs1, evs2.
    - exists []. rewrite app_nil_r. repeat (split; [assumption || auto|]). exact Htab.
    - exists [EvDelete (ReceiptHandle m)]. cbn [emit trace table flag_reads runs].
      split; [rewrite Ht; now rewrite <- !app_assoc|].
      repeat (split; [assumption || auto|]). exact Htab. }
  assert (Hstart : exists evs1 evs2 : list event,
             trace w = trace w ++ evs1 ++ evs2 /\
             (evs1 = [] \/ exists cmd input timeout, evs1 = [EvRun cmd input timeout]) /\
             deleted evs2 = [] /\ commands_run evs2 = [] /\
             (length (put_items evs2) <= 3)%nat /\
             flag_reads w = flag_reads w /\
             runs w = (runs w + length evs1)%nat /\
             (forall k,
                (forall job, json_loads E (Body m) = Some (PDict job) ->
                   dict_get job (lit "job_id") (PStr (lit "unknown")) <> PStr k) ->
                table w !! k = table w !! k)).
  { exists [], []. rewrite app_nil_r. cbn.
    repeat (split; [auto; lia|]). reflexivity. }
  assert (Hcases : json_loads E (Body m) = None \/
                   exists v, json_loads E (Body m) = Some v)
    by (destruct (json_loads E (Body m)); eauto).
  destruct Hcases as [Hjson|[v Hjson]].
  { rewrite (process_message_malformed E m w Hjson).
    apply (Hhandler w Hstart). now right. }
  destruct v as [| | | |job].
  1-4: rewrite (process_message_non_object E m _ w Hjson) by discriminate;
       apply (Hhandler w Hstart); now left.
  destruct (validate_job E job) as [[valid msg]|e] eqn:Hv.
  2: { rewrite (process_message_validation_raised E m job e w Hjson Hv).
       apply (Hhandler w Hstart). destruct e; cbn; auto. }
  destruct (validate_job_shape E job valid msg Hv) as [[-> ->]|[-> [text ->]]].
  - (* valid job *)
    destruct (validate_job_accepted E job Hv)
      as (l & image & code & n & t & _ & Hl & _ & Hc & _).
    rewrite (process_message_valid E m job (PStr l) code w Hjson Hv Hl Hc).
    cbv zeta.
    destruct (execute_code_effects E (PStr l) code
                (dict_get job (lit "timeout") (PInt MAX_EXECUTION_TIME)) w)
      as (Htab1 & _ & _ & Hf1 & Hrun).
    assert (Hafter_run : exists evs1,
              trace (snd (execute_code E (PStr l) code
                       (dict_get job (lit "timeout") (PInt MAX_EXECUTION_TIME)) w))
                = trace w ++ evs1 /\
              (evs1 = [] \/ exists cmd input timeout, evs1 = [EvRun cmd input timeout]) /\
              runs (snd (execute_code E (PStr l) code
                       (dict_get job (lit "timeout") (PInt MAX_EXECUTION_TIME)) w))
                = (runs w + length evs1)%nat).
    { destruct Hrun as [[Ht Hr]|(cmd & input & Ht & Hr)].
      - exists []. rewrite app_nil_r.
        split; [exact Ht|]. split; [now left|]. rewrite Hr. cbn [length]. lia.
      - exists [EvRun cmd input
                  (dict_get job (lit "timeout") (PInt MAX_EXECUTION_TIME))].
        split; [exact Ht|]. split; [right; eauto|]. rewrite Hr. cbn [length]. lia. }
    destruct Hafter_run as (evs1 & Ht1 & Hone & Hr1).
    destruct (execute_code E (PStr l) code _ w) as [[r|e] w1];
      cbn [fst snd] in *.
    2: { apply (Hhandler w1).
         - exists evs1, []. rewrite app_nil_r. cbn.
           repeat (split; [assumption || auto; lia|]).
           intros k _. now rewrite Htab1.
         - destruct e; cbn; auto. }
    destruct (write_result_effects E
                (dict_get job (lit "job_id") (PStr (lit "unknown"))) r job w1)
      as (Hr2 & Hf2 & evs2 & Ht2 & Hd2 & Hc2 & Hp2 & _).
    destruct (write_result_table E
                (dict_get job (lit "job_id") (PStr (lit "unknown"))) r job w1)
      as (Hok & Hko).
    assert (Hmid : exists evs1 evs2,
              trace (snd (write_result E
                       (dict_get job (lit "job_id") (PStr (lit "unknown"))) r job w1))
                = trace w ++ evs1 ++ evs2 /\
              (evs1 = [] \/ exists cmd input timeout, evs1 = [EvRun cmd input timeout]) /\
              deleted evs2 = [] /\ commands_run evs2 = [] /\
              (length (put_items evs2) <= 3)%nat /\
              flag_reads (snd (write_result E
                       (dict_get job (lit "job_id") (PStr (lit "unknown"))) r job w1))
                = flag_reads w /\
              runs (snd (write_result E
                       (dict_get job (lit "job_id") (PStr (lit "unknown"))) r job w1))
                = (runs w + length evs1)%nat /\
              (forall k,
                 (forall job0, json_loads E (Body m) = Some (PDict job0) ->
                    dict_get job0 (lit "job_id") (PStr (lit "unknown")) <> PStr k) ->
                 table (snd (write_result E
                       (dict_get job (lit "job_id") (PStr (lit "unknown"))) r job w1))
                   !! k = table w !! k)).
    { exists evs1, evs2. rewrite Ht2, Ht1, <- app_assoc.
      split; [reflexivity|]. split; [exact Hone|].
      split; [exact Hd2|]. split; [exact Hc2|]. split; [exact Hp2|].
      split; [congruence|]. split; [congruence|].
      intros k Hk. specialize (Hk job Hjson).
      destruct (fst (write_result E _ r job w1)) as [[|]|e] eqn:Hres.
      - destruct (Hok eq_refl) as (k0 & Hk0 & Htab2).
        rewrite Htab2, lookup_insert_ne by congruence. now rewrite Htab1.
      - rewrite Hko by discriminate. now rewrite Htab1.
      - rewrite Hko by discriminate. now rewrite Htab1. }
    destruct (write_result E _ r job w1) as [[b|e] w2]; cbn [fst snd] in *.
    + apply (Hhandler w2 Hmid). now right.
    + apply (Hhandler w2 Hmid). destruct e; cbn; auto.
  - (* refused job *)
    rewrite (process_message_invalid E m job text w Hjson Hv).
    destruct (write_result_effects E
                (dict_get job (lit "job_id") (PStr (lit "unknown")))
                (validation_outcome (Some text)) job w)
      as (Hr2 & Hf2 & evs2 & Ht2 & Hd2 & Hc2 & Hp2 & _).
    destruct (write_result_table E
                (dict_get job (lit "job_id") (PStr (lit "unknown")))
                (validation_outcome (Some text)) job w)
      as (Hok & Hko).
    assert (Hmid : exists evs1 evs2,
              trace (snd (write_result E
                       (dict_get job (lit "job_id") (PStr (lit "unknown")))
                       (validation_outcome (Some text)) job w))
                = trace w ++ evs1 ++ evs2 /\
              (evs1 = [] \/ exists cmd input timeout, evs1 = [EvRun cmd input timeout]) /\
              deleted evs2 = [] /\ commands_run evs2 = [] /\
              (length (put_items evs2) <= 3)%nat /\
              flag_reads (snd (write_result E
                       (dict_get job (lit "job_id") (PStr (lit "unknown")))
                       (validation_outcome (Some text)) job w))
                = flag_reads w /\
              runs (snd (write_result E
                       (dict_get job (lit "job_id") (PStr (lit "unknown")))
                       (validation_outcome (Some text)) job w))
                = (runs w + length evs1)%nat /\
              (forall k,
                 (forall job0, json_loads E (Body m) = Some (PDict job0) ->
                    dict_get job0 (lit "job_id") (PStr (lit "unknown")) <> PStr k) ->
                 table (snd (write_result E
                       (dict_get job (lit "job_id") (PStr (lit "unknown")))
                       (validation_outcome (Some text)) job w))
                   !! k = table w !! k)).
    { exists [], evs2. rewrite Ht2. cbn [app length].
      split; [reflexivity|]. split; [now left|].
      split; [exact Hd2|]. split; [exact Hc2|]. split; [exact Hp2|].
      split; [exact Hf2|]. split; [rewrite Hr2; lia|].
      intros k Hk. specialize (Hk job Hjson).
      destruct (fst (write_result E _ _ job w)) as [[|]|e] eqn:Hres.
      - destruct (Hok eq_refl) as (k0 & Hk0 & Htab2).
        now rewrite Htab2, lookup_insert_ne by congruence.
      - now rewrite Hko by discriminate.
      - now rewrite Hko by discriminate. }
    destruct (write_result E _ _ job w) as [[b|e] w2]; cbn [fst snd] in *.
    + apply (Hhandler w2 Hmid). now right.
    + apply (Hhandler w2 Hmid). now left.
Qed.

(** X10: one delivery makes at most one sandbox run, at most three puts,
    and deletes at most one message, its own; it never reads the shutdown
    flag, and what it adds to the trace comes after what was there. *)
Theorem process_message_footprint m w :
  let w' := snd (process_message E m w) in
  flag_reads w' = flag_reads w /\
  (runs w <= runs w' <= S (runs w))%nat /\
  exists evs,
    trace w' = trace w ++ evs /\
    (length (commands_run evs) <= 1)%nat /\
    (length (put_items evs) <= 3)%nat /\
    (deleted evs = [] \/ deleted evs = [ReceiptHandle m]).
Proof.
  cbv zeta.
  destruct (process_message_stages m w)
    as (evs1 & evs2 & evs3 & Ht & H1 & Hd2 & Hc2 & Hp2 & H3 & Hf & Hr & _).
  split; [exact Hf|].
  assert (Hlen1 : (length evs1 <= 1)%nat)
    by (destruct H1 as [->|(c & i & t & ->)]; cbn; lia).
  split; [lia|].
  exists (evs1 ++ evs2 ++ evs3). split; [exact Ht|].
  unfold commands_run, put_items, deleted in *.
  rewrite !omap_app, !length_app, Hd2, Hc2.
  assert (Hc1 : (length (omap (fun e => match e with
                                        | EvRun cmd _ _ => Some cmd
                                        | _ => None
                                        end) evs1) <= 1)%nat)
    by (destruct H1 as [->|(c & i & t & ->)]; cbn; lia).
  assert (Hp1 : omap (fun e => match e with
                               | EvPut i _ => Some i
                               | _ => None
                               end) evs1 = [])
    by (destruct H1 as [->|(c & i & t & ->)]; reflexivity).
  assert (Hd1 : omap (fun e => match e with
                               | EvDelete h => Some h
                               | _ => None
                               end) evs1 = [])
    by (destruct H1 as [->|(c & i & t & ->)]; reflexivity).
  rewrite Hp1, Hd1.
  destruct H3 as [->| ->]; cbn; (split; [lia|]); (split; [lia|]); auto.
Qed.

(** X11: a delivery changes no record of the table other than the one
    stored under its own job's id: a message that is not a JSON object, or
    whose job id is not the string [k], leaves the record stored under [k]
    as it was. *)
Theorem process_message_changes_only_its_job_record m w k :
  (forall job, json_loads E (Body m) = Some (PDict job) ->
               dict_get job (lit "job_id") (PStr (lit "unknown")) <> PStr k) ->
  table (snd (process_message E m w)) !! k = table w !! k.
Proof.
  intros Hother.
  destruct (process_message_stages m w)
    as (evs1 & evs2 & evs3 & _ & _ & _ & _ & _ & _ & _ & _ & Htab).
  apply Htab. exact Hother.
Qed.

End Footprint.

(** ** From validation to the stored record *)

Section Pipeline.

Variable E : Env.

(** For a job that passed validation the sandbox is always reached, and
    whatever it answers becomes an outcome. *)
Lemma execute_code_accepted job language code w :
  validate_job E job = Ok (true, None) ->
  job !! lit "language" = Some language ->
  job !! lit "code" = Some code ->
  exists out cmd input,
    execute_code E language code
      (dict_get job (lit "timeout") (PInt MAX_EXECUTION_TIME)) w
    = (Ok out,
       {| table := table w;
          trace := trace w
                   ++ [EvRun cmd input
                         (dict_get job (lit "timeout") (PInt MAX_EXECUTION_TIME))];
          runs := S (runs w); puts := puts w;
          clock_reads := clock_reads w; flag_reads := flag_reads w |}).
Proof.
  intros Hv Hl Hc.
  destruct (validate_job_accepted E job Hv)
    as (l & image & code' & n & t & _ & Hl' & Himg & _ & _ & _ & Ht & _).
  rewrite Hl in Hl'. injection Hl' as ->. rewrite Ht.
  destruct (execute_code_supported E l image code (PNum t) w Himg)
    as (command & _ & Heq).
  rewrite Heq. cbv zeta.
  destruct (times_1000_number E t) as [ms Hms]. rewrite Hms.
  destruct (subprocess_run E (runs w) _ _ (PNum t)); do 3 eexists; reflexivity.
Qed.

(** X12: the validation gate is enough for the sandbox executor: for every
    job that [validate_job] accepts, [execute_code] called as
    [process_message] calls it returns an outcome and never raises,
    whatever the sandbox does, and it has made exactly one run. *)
Theorem accepted_job_always_gets_an_outcome job w :
  validate_job E job = Ok (true, None) ->
  exists language code out,
    job !! lit "language" = Some language /\
    job !! lit "code" = Some code /\
    fst (execute_code E language code
           (dict_get job (lit "timeout") (PInt MAX_EXECUTION_TIME)) w) = Ok out /\
    runs (snd (execute_code E language code
                 (dict_get job (lit "timeout") (PInt MAX_EXECUTION_TIME)) w))
      = S (runs w).
Proof.
  intros Hv.
  destruct (validate_job_accepted E job Hv)
    as (l & image & code & n & t & _ & Hl & _ & Hc & _).
  destruct (execute_code_accepted job (PStr l) code w Hv Hl Hc)
    as (out & cmd & input & Heq).
  exists (PStr l), code, out. rewrite Heq. repeat split; assumption.
Qed.

(** X13: a valid job whose id is a string and whose first put is accepted
    by the store goes through the whole pipeline in three steps: one
    sandbox run, one put, one delete of its message. The table then holds,
    under the job's id, a record with the status, output, error and exit
    code of the run. *)
Theorem valid_job_is_run_recorded_and_acknowledged m job k w :
  json_loads E (Body m) = Some (PDict job) ->
  validate_job E job = Ok (true, None) ->
  job !! lit "job_id" = Some (PStr k) ->
  put_item E (puts w) = PutOk ->
  exists language code out item cmd input,
    job !! lit "language" = Some language /\
    job !! lit "code" = Some code /\
    fst (execute_code E language code
           (dict_get job (lit "timeout") (PInt MAX_EXECUTION_TIME)) w) = Ok out /\
    trace (snd (process_message E m w))
      = trace w ++ [EvRun cmd input
                      (dict_get job (lit "timeout") (PInt MAX_EXECUTION_TIME));
                    EvPut item PutOk;
                    EvDelete (ReceiptHandle m)] /\
    table (snd (process_message E m w)) = <[k := item]> (table w) /\
    i_job_id item = PStr k /\
    i_status item = o_status out /\
    i_output item = o_output out /\
    i_error item = o_error out /\
    i_exit_code item = o_exit_code out.
Proof.
  intros Hjson Hv Hk Hput.
  destruct (validate_job_accepted E job Hv)
    as (l & image & code & n & t & _ & Hl & _ & Hc & _).
  destruct (execute_code_accepted job (PStr l) code w Hv Hl Hc)
    as (out & cmd & input & Heq).
  exists (PStr l), code, out.
  rewrite (process_message_valid E m job (PStr l) code w Hjson Hv Hl Hc).
  cbv zeta. rewrite Heq.
  assert (Hid : dict_get job (lit "job_id") (PStr (lit "unknown")) = PStr k)
    by (unfold dict_get; now rewrite Hk).
  assert (Hans : forall r t1 t2,
             put_answer E (make_item E (PStr k) r job t1 t2) (puts w) = PutOk)
    by (intros; unfold put_answer; cbn; exact Hput).
  rewrite Hid, write_result_unfold, put_with_retry_step.
  cbv zeta. cbn [puts clock_reads]. rewrite !Hans.
  eexists. exists cmd, input.
  split; [exact Hl|]. split; [exact Hc|]. split; [reflexivity|].
  cbn [snd emit record_put trace table make_item i_job_id].
  split; [now rewrite <- !app_assoc|].
  split; [reflexivity|]. cbn. repeat split.
Qed.

End Pipeline.

(** ** The sandbox command line *)

Section CommandLine.

Variable E : Env.

Lemma execute_code_trace l image code timeout w :
  assoc l LANGUAGE_IMAGES = Some image ->
  exists command,
    assoc l (exec_commands code) = Some command /\
    trace (snd (execute_code E (PStr l) code timeout w))
      = trace w ++ [EvRun (docker_prefix image ++ command)
                      (if is_go (PStr l) then code else PNone) timeout].
Proof.
  intros Himg.
  destruct (execute_code_supported E l image code timeout w Himg)
    as (command & Hc & Heq).
  exists command. split; [exact Hc|]. rewrite Heq. cbv zeta.
  destruct (subprocess_run E (runs w) _ _ timeout); try reflexivity.
  destruct (times_1000 E timeout); reflexivity.
Qed.

(** X14: every sandbox run is started as [docker run] with the same
    isolation options, in this order: no network, half a CPU, 256m of
    memory, at most 50 processes, a read-only file system, all capabilities
    dropped and no new privileges; then the image of the language and its
    interpreter. For python, javascript and ruby the code is the last
    argument and nothing is fed to stdin; for go the command ends with
    /dev/stdin and the code is fed to stdin. *)
Theorem execute_code_isolates_every_run l image code timeout w :
  assoc l LANGUAGE_IMAGES = Some image ->
  let options :=
    map PStr [ lit "docker"; lit "run"; lit "--rm"; lit "--interactive";
               lit "--network"; lit "none"; lit "--cpus"; lit "0.5";
               lit "--memory"; lit "256m"; lit "--pids-limit"; lit "50";
               lit "--read-only"; lit "--cap-drop"; lit "ALL";
               lit "--security-opt"; lit "no-new-privileges" ] in
  exists interpreter input,
    trace (snd (execute_code E (PStr l) code timeout w))
      = trace w ++ [EvRun (options ++ [PStr image] ++ interpreter) input timeout] /\
    ((l = lit "python" /\ image = lit "python:3.11-alpine" /\
      interpreter = [PStr (lit "python"); PStr (lit "-c"); code] /\ input = PNone) \/
     (l = lit "javascript" /\ image = lit "node:20-alpine" /\
      interpreter = [PStr (lit "node"); PStr (lit "-e"); code] /\ input = PNone) \/
     (l = lit "ruby" /\ image = lit "ruby:3.2-alpine" /\
      interpreter = [PStr (lit "ruby"); PStr (lit "-e"); code] /\ input = PNone) \/
     (l = lit "go" /\ image = lit "golang:1.21-alpine" /\
      interpreter = [PStr (lit "go"); PStr (lit "run"); PStr (lit "/dev/stdin")] /\
      input = code)).
Proof.
  intros Himg options.
  destruct (execute_code_trace l image code timeout w Himg) as (command & Hc & Ht).
  assert (Hprefix : docker_prefix image = options ++ [PStr image])
    by (vm_compute; reflexivity).
  rewrite Ht, Hprefix, <- app_assoc.
  destruct (supported_language_cases l image Himg)
    as [[-> ->]|[[-> ->]|[[-> ->]|[-> ->]]]];
    vm_compute in Hc; injection Hc as <-;
    do 2 eexists; (split; [reflexivity|]).
  - left. repeat split.
  - right; left. repeat split.
  - right; right; left. repeat split.
  - right; right; right. repeat split.
Qed.

(** X15: [prepull_images] pulls the four images in the order of the
    table, each with a timeout of 120 seconds, and always comes back: a
    pull that fails, times out or raises does not stop the loop. It touches
    nothing else. *)
Theorem prepull_images_pulls_all_and_returns w :
  let pull image := EvRun [PStr (lit "docker"); PStr (lit "pull"); PStr image]
                      PNone (PInt 120) in
  exists w',
    prepull_images E w = (Ok tt, w') /\
    trace w' = trace w ++ [pull (lit "python:3.11-alpine");
                           pull (lit "node:20-alpine");
                           pull (lit "ruby:3.2-alpine");
                           pull (lit "golang:1.21-alpine")] /\
    table w' = table w /\ runs w' = (runs w + 4)%nat /\ puts w' = puts w.
Proof.
  cbv zeta.
  assert (Hone : forall image w0,
             pull_image E image w0
             = (Ok tt,
                {| table := table w0;
                   trace := trace w0
                            ++ [EvRun [PStr (lit "docker"); PStr (lit "pull");
                                       PStr image] PNone (PInt 120)];
                   runs := S (runs w0); puts := puts w0;
                   clock_reads := clock_reads w0;
                   flag_reads := flag_reads w0 |})).
  { intros image w0. unfold pull_image, try_except, bind, run_subprocess, ret.
    destruct (subprocess_run E (runs w0) _ _ _); reflexivity. }
  unfold prepull_images, LANGUAGE_IMAGES, pull_all, bind.
  rewrite !Hone. cbn [table trace runs puts clock_reads flag_reads ret].
  eexists. split; [reflexivity|]. cbn.
  rewrite <- !app_assoc. repeat split. lia.
Qed.

End CommandLine.

(** ** The polling loop *)

Section Polling.

Variable E : Env.

Lemma failed_poll_cases r :
  is_failed_poll r = true -> r = RecvClientError \/ r = RecvException.
Proof. destruct r; cbn; [discriminate | tauto | tauto]. Qed.

(** A failed poll below the threshold: one read of the flag, a sleep of 5
    seconds, and the loop goes on with the counter incremented. *)
Lemma poll_loop_failed_step r rest c w :
  is_failed_poll r = true ->
  is_set E (flag_reads w) = false ->
  c + 1 < 5 ->
  poll_loop E (r :: rest) c w
    = poll_loop E rest (c + 1) (emit (EvSleep 5) (flag_read w)).
Proof.
  intros Hr Hflag Hc.
  cbn [poll_loop]. unfold bind at 1, shutdown_is_set. rewrite Hflag.
  unfold bind. rewrite (poll_once_error E r c _ (failed_poll_cases r Hr)).
  replace (5 <=? c + 1) with false by (symmetry; apply Z.leb_gt; lia).
  reflexivity.
Qed.

(** The failed poll that reaches the threshold ends the loop at once. *)
Lemma poll_loop_failed_last r rest c w :
  is_failed_poll r = true ->
  is_set E (flag_reads w) = false ->
  5 <= c + 1 ->
  poll_loop E (r :: rest) c w = (Ok (TooManyErrors, c + 1), flag_read w).
Proof.
  intros Hr Hflag Hc.
  cbn [poll_loop]. unfold bind at 1, shutdown_is_set. rewrite Hflag.
  unfold bind. rewrite (poll_once_error E r c _ (failed_poll_cases r Hr)).
  replace (5 <=? c + 1) with true by (symmetry; apply Z.leb_le; lia).
  reflexivity.
Qed.

(** X16: five failed polls in a row, counted from zero and with no
    shutdown requested, end the loop with the counter at 5, whatever the
    queue would have answered next. The worker has slept 5 seconds after
    each of the first four failures and not after the fifth, and has
    touched neither the table nor the queue. *)
Theorem five_failed_polls_stop_the_worker failures rest w :
  length failures = 5%nat ->
  forallb is_failed_poll failures = true ->
  (forall i, (i < 5)%nat -> is_set E (flag_reads w + i) = false) ->
  exists w',
    poll_queue E (failures ++ rest) w = (Ok (TooManyErrors, 5), w') /\
    trace w' = trace w ++ [EvSleep 5; EvSleep 5; EvSleep 5; EvSleep 5] /\
    table w' = table w /\ runs w' = runs w /\ puts w' = puts w.
Proof.
  intros Hlen Hall Hflags.
  destruct failures as [|r1 [|r2 [|r3 [|r4 [|r5 [|r6 tl]]]]]]; try discriminate Hlen.
  cbn in Hall.
  repeat match type of Hall with _ && _ = true =>
    apply andb_prop in Hall; destruct Hall as [? Hall] end.
  pose proof (Hflags 0%nat ltac:(lia)) as F0.
  pose proof (Hflags 1%nat ltac:(lia)) as F1.
  pose proof (Hflags 2%nat ltac:(lia)) as F2.
  pose proof (Hflags 3%nat ltac:(lia)) as F3.
  pose proof (Hflags 4%nat ltac:(lia)) as F4.
  rewrite Nat.add_0_r in F0.
  replace (flag_reads w + 1)%nat with (S (flag_reads w)) in F1 by lia.
  replace (flag_reads w + 2)%nat with (S (S (flag_reads w))) in F2 by lia.
  replace (flag_reads w + 3)%nat with (S (S (S (flag_reads w)))) in F3 by lia.
  replace (flag_reads w + 4)%nat with (S (S (S (S (flag_reads w))))) in F4 by lia.
  unfold poll_queue. cbn [app].
  rewrite poll_loop_failed_step by (assumption || lia).
  rewrite poll_loop_failed_step by (assumption || lia).
  rewrite poll_loop_failed_step by (assumption || lia).
  rewrite poll_loop_failed_step by (assumption || lia).
  rewrite poll_loop_failed_last by (assumption || lia).
  eexists. split; [reflexivity|].
  cbn. rewrite <- !app_assoc. repeat split.
Qed.

End Polling.

Section LoopInvariants.

Variable E : Env.



Lemma process_message_keeps_flag m w :
  flag_reads (snd (process_message E m w)) = flag_reads w.
Proof.
  destruct (process_message_stages E m w)
    as (_ & _ & _ & _ & _ & _ & _ & _ & _ & Hf & _).
  exact Hf.
Qed.

(** X18: when the shutdown flag is found set before a message of a batch,
    that message and all those after it are left alone: the batch ends as
    if it had held only the messages before it, so none of the remaining
    messages is run, written or deleted. When the messages before it are
    all processed the batch returns after one more read of the flag; when
    processing one of them raised (the delete of a message that is not
    JSON), the batch had stopped there with that exception. *)
Theorem interrupted_batch_leaves_the_rest_untouched before m after w :
  (forall i, (i < length before)%nat -> is_set E (flag_reads w + i) = false) ->
  is_set E (flag_reads w + length before) = true ->
  process_batch E (before ++ m :: after) w
    = match process_batch E before w with
      | (Ok _, w') => (Ok tt, flag_read w')
      | (Raise e, w') => (Raise e, w')
      end.
Proof.
  revert w. induction before as [|b before IH]; intros w Hfalse Htrue.
  - cbn in *. rewrite Nat.add_0_r in Htrue.
    unfold bind, shutdown_is_set. now rewrite Htrue.
  - cbn [app process_batch length] in *.
    assert (H0 : is_set E (flag_reads w) = false)
      by (rewrite <- (Nat.add_0_r (flag_reads w)); apply Hfalse; lia).
    unfold bind at 1 3, shutdown_is_set. rewrite H0.
    unfold bind at 1 2.
    match goal with |- context [process_message E b ?w0] =>
      pose proof (process_message_keeps_flag b w0) as Hf1;
      destruct (process_message E b w0) as [[[]|e] w1] end; [|reflexivity].
    cbn [snd flag_reads] in Hf1.
    apply IH.
    + intros i Hi. rewrite Hf1.
      replace (S (flag_reads w) + i)%nat with (flag_reads w + S i)%nat by lia.
      apply Hfalse. lia.
    + rewrite Hf1.
      replace (S (flag_reads w) + length before)%nat
        with (flag_reads w + S (length before))%nat by lia.
      exact Htrue.
Qed.

End LoopInvariants.

(** * Properties of the submission function *)

Section Submission.

Variable P : Producer.Env.

(** What an accepted request looks like. *)
Lemma validate_request_accepted body message :
  Producer.validate_request P body = Ok (true, message) ->
  message = [] /\
  exists d raw text t,
    body = PDict d /\
    d !! lit "language" = Some (PStr raw) /\
    Producer.lower P raw ∈ Producer.ALLOWED_LANGUAGES /\
    d !! lit "code" = Some (PStr text) /\
    0 < Z.of_nat (length text) <= 10240 /\
    dict_get d (lit "timeout") (PInt 5) = PNum t /\
    Producer.out_of_range t = false.
Proof.
  unfold Producer.validate_request.
  destruct (Producer.contains body (lit "language")) as [[|]|] eqn:Hhl;
    cbn [rbind negb]; try discriminate.
  destruct (Producer.contains body (lit "code")) as [[|]|] eqn:Hhc;
    cbn [rbind negb]; try discriminate.
  destruct body as [| | | |d]; try discriminate.
  cbn [Producer.subscript]. unfold getitem.
  destruct (d !! lit "language") as [raw|] eqn:Hl; cbn [rbind]; [|discriminate].
  destruct raw as [| |raw| |]; cbn [Producer.lowered rbind]; try discriminate.
  destruct (bool_decide (Producer.lower P raw ∈ Producer.ALLOWED_LANGUAGES)) eqn:Hin;
    cbn [negb]; [|discriminate].
  apply bool_decide_eq_true in Hin.
  destruct (d !! lit "code") as [code|] eqn:Hc; cbn [rbind]; [|discriminate].
  destruct code as [| |text| |]; try discriminate.
  destruct (Z.of_nat (length text) =? 0) eqn:Hzero; [discriminate|].
  destruct (Producer.MAX_CODE_SIZE <? Z.of_nat (length text)) eqn:Hbig;
    [discriminate|].
  cbn [Producer.get rbind].
  destruct (dict_get d (lit "timeout") (PInt 5)) as [|t| | |] eqn:Ht;
    try discriminate.
  destruct (Producer.out_of_range t) eqn:Hrange; [discriminate|].
  intros H. injection H as <-. split; [reflexivity|].
  exists d, raw, text, t.
  apply Z.eqb_neq in Hzero. apply Z.ltb_ge in Hbig.
  unfold Producer.MAX_CODE_SIZE in Hbig.
  repeat (split; [first [reflexivity | assumption | lia]|]). exact Hrange.
Qed.

(** X19: [validate_request] accepts exactly the bodies that are objects
    with a string language whose lower-case form is one of the four
    allowed, a string code of 1 to 10240 characters, and a timeout (5 when
    absent) that is a number neither [<= 0] nor [> 10]; it then returns
    (True, ""). Nothing else is accepted: in particular an empty code and a
    code that is not a string are refused here. *)
Theorem validate_request_accepts_exactly body :
  Producer.validate_request P body = Ok (true, []) <->
  exists d raw text t,
    body = PDict d /\
    d !! lit "language" = Some (PStr raw) /\
    Producer.lower P raw ∈ Producer.ALLOWED_LANGUAGES /\
    d !! lit "code" = Some (PStr text) /\
    0 < Z.of_nat (length text) <= 10240 /\
    dict_get d (lit "timeout") (PInt 5) = PNum t /\
    num_le t 0 = false /\ num_gt t 10 = false.
Proof.
  split.
  - intros H. apply validate_request_accepted in H as [_ H].
    destruct H as (d & raw & text & t & Hb & Hl & Hin & Hc & Hlen & Ht & Hr).
    exists d, raw, text, t.
    apply orb_false_iff in Hr as [H0 H10].
    repeat (split; [assumption|]). exact H10.
  - intros (d & raw & text & t & -> & Hl & Hin & Hc & Hlen & Ht & H0 & H10).
    unfold Producer.validate_request, Producer.contains, Producer.subscript,
      getitem.
    rewrite Hl, Hc. cbn [rbind negb Producer.lowered].
    rewrite (bool_decide_eq_true_2 _ Hin). cbn [negb].
    replace (Z.of_nat (length text) =? 0) with false
      by (symmetry; apply Z.eqb_neq; lia).
    replace (Producer.MAX_CODE_SIZE <? Z.of_nat (length text)) with false
      by (symmetry; apply Z.ltb_ge; unfold Producer.MAX_CODE_SIZE; lia).
    cbn [Producer.get rbind]. rewrite Ht.
    unfold Producer.out_of_range, Producer.MAX_TIMEOUT. rewrite H0, H10.
    reflexivity.
Qed.

Lemma allowed_language_has_image l :
  l ∈ Producer.ALLOWED_LANGUAGES ->
  exists image, assoc l LANGUAGE_IMAGES = Some image.
Proof.
  unfold Producer.ALLOWED_LANGUAGES. intros Hin.
  repeat (apply elem_of_cons in Hin as [->|Hin]; [eexists; reflexivity|]).
  now apply elem_of_nil in Hin.
Qed.

(** The job built from an accepted request. *)
Lemma create_job_accepted d raw text t w :
  d !! lit "language" = Some (PStr raw) ->
  d !! lit "code" = Some (PStr text) ->
  dict_get d (lit "timeout") (PInt 5) = PNum t ->
  exists job,
    Producer.create_job P (PDict d) w
      = (Ok job, Producer.read_clock (Producer.took_id w)) /\
    job !! lit "job_id" = Some (PStr (Producer.uuid4 P (Producer.ids w))) /\
    job !! lit "language" = Some (PStr (Producer.lower P raw)) /\
    job !! lit "code" = Some (PStr text) /\
    job !! lit "timeout" = Some (PNum t).
Proof.
  intros Hl Hc Ht.
  unfold Producer.create_job, Producer.subscript, Producer.get, getitem.
  rewrite Hl, Hc, Ht. cbn [rbind Producer.lowered].
  eexists. split; [reflexivity|].
  repeat split; vm_compute; reflexivity.
Qed.

End Submission.

Section SubmissionPipeline.

Variable P : Producer.Env.
Variable E : Env.

(** A job built from an accepted request passes the worker's checks. *)
Lemma created_job_is_valid job raw text t :
  Producer.lower P raw ∈ Producer.ALLOWED_LANGUAGES ->
  0 < Z.of_nat (length text) <= 10240 ->
  Producer.out_of_range t = false ->
  is_Some (job !! lit "job_id") ->
  job !! lit "language" = Some (PStr (Producer.lower P raw)) ->
  job !! lit "code" = Some (PStr text) ->
  job !! lit "timeout" = Some (PNum t) ->
  validate_job E job = Ok (true, None).
Proof.
  intros Hin Hlen Hrange Hj Hl Hc Ht.
  destruct (allowed_language_has_image _ Hin) as [image Himg].
  rewrite (validate_job_reaches_timeout E job _ image (PStr text)
             (Z.of_nat (length text)) Hj Hl Himg Hc eq_refl)
    by (unfold MAX_CODE_SIZE; lia).
  cbv zeta. unfold dict_get. rewrite Ht.
  cbn [is_number negb orb timeout_out_of_range].
  unfold Producer.out_of_range, Producer.MAX_TIMEOUT in Hrange.
  unfold MAX_EXECUTION_TIME. now rewrite Hrange.
Qed.

(** X20: the two validations agree in the direction that matters: every
    request accepted by [validate_request] yields, through [create_job], a
    job that the worker's [validate_job] accepts too. The job carries a
    fresh job id and always a timeout, so the worker's default of 10
    seconds is never applied to a job submitted this way. *)
Theorem submitted_job_passes_worker_validation body w :
  Producer.validate_request P body = Ok (true, []) ->
  exists job w',
    Producer.create_job P body w = (Ok job, w') /\
    validate_job E job = Ok (true, None) /\
    job !! lit "job_id" = Some (PStr (Producer.uuid4 P (Producer.ids w))) /\
    is_Some (job !! lit "timeout").
Proof.
  intros Hv. apply validate_request_accepted in Hv as [_ Hv].
  destruct Hv as (d & raw & text & t & -> & Hl & Hin & Hc & Hlen & Ht & Hr).
  destruct (create_job_accepted P d raw text t w Hl Hc Ht)
    as (job & Hjob & Hjid & Hjl & Hjc & Hjt).
  exists job. eexists. split; [exact Hjob|].
  split; [|split; [exact Hjid | eauto]].
  eapply created_job_is_valid; eauto.
Qed.

(** X21: what [lambda_handler] does with an accepted request. The PENDING
    record is written first, under the fresh job id; if the store refuses
    it the answer is 500 and nothing is enqueued. The job is enqueued only
    after the record exists; if the queue refuses it the answer is 500 and
    the PENDING record stays in the table. The answer is 202 exactly when
    both succeeded, and the message then on the queue carries a job that
    the worker's validation accepts. *)
Theorem lambda_handler_records_then_enqueues event request w :
  Producer.request_body P event = Ok request ->
  Producer.validate_request P request = Ok (true, []) ->
  let job_id := Producer.uuid4 P (Producer.ids w) in
  let res := Producer.lambda_handler P event w in
  match Producer.put_item P (Producer.puts w) with
  | PutClientError =>
      fst res = Ok (Producer.error_response P 500
                      (lit "Failed to initialize job record")) /\
      Producer.records (snd res) = Producer.records w /\
      Producer.queue (snd res) = Producer.queue w
  | PutException text =>
      fst res = Raise (OtherException text) /\
      Producer.records (snd res) = Producer.records w /\
      Producer.queue (snd res) = Producer.queue w
  | PutOk =>
      (exists pending,
         Producer.records (snd res) = <[job_id := pending]> (Producer.records w) /\
         Producer.p_job_id pending = job_id /\
         Producer.p_status pending = lit "PENDING" /\
         Producer.p_output pending = [] /\ Producer.p_error pending = []) /\
      match Producer.send_message P (Producer.sends w) with
      | Producer.SendOk _ =>
          fst res = Ok (Producer.accepted_response P job_id) /\
          exists job language,
            Producer.queue (snd res)
              = Producer.queue w
                ++ [ {| Producer.MessageBody := Producer.dumps P (PDict job);
                        Producer.attribute_job_id := PStr job_id;
                        Producer.attribute_language := language |} ] /\
            validate_job E job = Ok (true, None) /\
            job !! lit "job_id" = Some (PStr job_id)
      | Producer.SendClientError text =>
          fst res = Ok (Producer.error_response P 500
                          (lit "Failed to enqueue job: " ++ text)) /\
          Producer.queue (snd res) = Producer.queue w
      | Producer.SendException text =>
          fst res = Raise (OtherException text) /\
          Producer.queue (snd res) = Producer.queue w
      end
  end.
Proof.
  intros Hbody Hv. cbv zeta.
  pose proof Hv as Hacc. apply validate_request_accepted in Hacc as [_ Hacc].
  destruct Hacc as (d & raw & text & t & -> & Hl & Hin & Hc & Hlen & Ht & Hr).
  destruct (create_job_accepted P d raw text t w Hl Hc Ht)
    as (job & Hjob & Hjid & Hjl & Hjc & Hjt).
  assert (Hvalid : validate_job E job = Ok (true, None))
    by (eapply created_job_is_valid; eauto).
  unfold Producer.lambda_handler. rewrite Hbody, Hv, Hjob.
  unfold Producer.job_id_of, getitem. rewrite Hjid, Hjl.
  unfold Producer.initialize_job_record.
  cbn [Producer.puts Producer.read_clock Producer.took_id].
  destruct (Producer.put_item P (Producer.puts w)) as [| |ptext].
  2: { cbn. repeat split. }
  2: { cbn. repeat split. }
  unfold Producer.enqueue_job, getitem. rewrite Hjid, Hjl.
  cbn [rbind Producer.sends Producer.read_clock Producer.took_id].
  split.
  { destruct (Producer.send_message P (Producer.sends w));
      eexists; (split; [reflexivity|]); cbn; repeat split. }
  destruct (Producer.send_message P (Producer.sends w)) as [mid|stext|stext].
  - split; [reflexivity|]. exists job. eexists. cbn.
    split; [reflexivity|]. split; [exact Hvalid | exact Hjid].
  - cbn. repeat split.
  - cbn. repeat split.
Qed.

(** X22: a request that is not acceptable is answered with status 400 and
    leaves no trace: a body that is not JSON gets "Invalid JSON in request
    body", a request refused by [validate_request] gets the message of the
    refusal; no id is drawn, no record written, nothing enqueued. *)
Theorem lambda_handler_refuses_without_a_trace event w :
  (forall text, event !! lit "body" = Some (PStr text) ->
     Producer.loads P text = None ->
     Producer.lambda_handler P event w
       = (Ok (Producer.error_response P 400 (lit "Invalid JSON in request body")),
          w)) /\
  (forall request message,
     Producer.request_body P event = Ok request ->
     Producer.validate_request P request = Ok (false, message) ->
     Producer.lambda_handler P event w
       = (Ok (Producer.error_response P 400 message), w)).
Proof.
  split.
  - intros text Hb Hloads.
    unfold Producer.lambda_handler, Producer.request_body.
    now rewrite Hb, Hloads.
  - intros request message Hbody Hv.
    unfold Producer.lambda_handler. now rewrite Hbody, Hv.
Qed.

End SubmissionPipeline.

(** * The further properties on sample inputs *)

Lemma validate_job_names_first_missing_field_witness :
  hello_request !! lit "job_id" = None /\
  validate_job (demo_env (PDict hello_request) hello_run store_up) hello_request
    = Ok (false, Some (lit "Missing required field: job_id")).
Proof.
  assert (H : hello_request !! lit "job_id" = None) by (vm_compute; reflexivity).
  split; [exact H|].
  exact (proj1 (validate_job_names_first_missing_field
                  (demo_env (PDict hello_request) hello_run store_up)
                  hello_request) H).
Defined.

Lemma validate_job_refuses_unlisted_language_witness :
  is_Some (haskell_job !! lit "job_id") /\
  haskell_job !! lit "language" = Some (PStr (lit "haskell")) /\
  is_Some (haskell_job !! lit "code") /\
  in_LANGUAGE_IMAGES (PStr (lit "haskell")) = Ok false /\
  validate_job (demo_env (PDict haskell_job) hello_run store_up) haskell_job
    = Ok (false, Some (lit "Unsupported language: haskell. Supported: ?")).
Proof.
  assert (Hj : is_Some (haskell_job !! lit "job_id"))
    by (exists (PStr (lit "job-5")); vm_compute; reflexivity).
  assert (Hl : haskell_job !! lit "language" = Some (PStr (lit "haskell")))
    by (vm_compute; reflexivity).
  assert (Hc : is_Some (haskell_job !! lit "code"))
    by (exists (PStr (lit "main = print 1")); vm_compute; reflexivity).
  split; [exact Hj|]. split; [exact Hl|]. split; [exact Hc|].
  split; [reflexivity|].
  exact (validate_job_refuses_unlisted_language
           (demo_env (PDict haskell_job) hello_run store_up)
           haskell_job (PStr (lit "haskell")) Hj Hl Hc eq_refl).
Defined.

Lemma validate_job_code_size_limit_witness :
  is_Some (hello_job !! lit "job_id") /\
  hello_job !! lit "language" = Some (PStr (lit "python")) /\
  assoc (lit "python") LANGUAGE_IMAGES = Some (lit "python:3.11-alpine") /\
  hello_job !! lit "code" = Some (PStr (lit "print('hello world')")) /\
  py_len (PStr (lit "print('hello world')")) = Ok 20 /\
  validate_job (demo_env (PDict hello_job) hello_run store_up) hello_job
    <> Ok (false, Some (lit "Code exceeds size limit of 10240 bytes")).
Proof.
  assert (Hj : is_Some (hello_job !! lit "job_id"))
    by (exists (PStr (lit "job-1")); vm_compute; reflexivity).
  assert (Hl : hello_job !! lit "language" = Some (PStr (lit "python")))
    by (vm_compute; reflexivity).
  assert (Hc : hello_job !! lit "code" = Some (PStr (lit "print('hello world')")))
    by (vm_compute; reflexivity).
  split; [exact Hj|]. split; [exact Hl|]. split; [reflexivity|].
  split; [exact Hc|]. split; [reflexivity|].
  apply (proj2 (validate_job_code_size_limit
                  (demo_env (PDict hello_job) hello_run store_up) hello_job
                  (lit "python") (lit "python:3.11-alpine")
                  (PStr (lit "print('hello world')")) 20
                  Hj Hl eq_refl Hc eq_refl)).
  lia.
Defined.

Lemma validate_job_result_shape_witness :
  validate_job (demo_env (PDict hello_job) hello_run store_up) hello_job
    = Ok (true, None) /\
  ((true = true /\ @None pystr = None) \/
   (true = false /\ exists text, @None pystr = Some text)).
Proof.
  assert (H : validate_job (demo_env (PDict hello_job) hello_run store_up)
                hello_job = Ok (true, None)) by (vm_compute; reflexivity).
  split; [exact H|].
  exact (validate_job_result_shape
           (demo_env (PDict hello_job) hello_run store_up) hello_job
           true None H).
Defined.

Lemma validate_job_accepts_only_runnable_jobs_witness :
  validate_job (demo_env (PDict hello_job) hello_run store_up) hello_job
    = Ok (true, None) /\
  is_Some (hello_job !! lit "job_id").
Proof.
  assert (H : validate_job (demo_env (PDict hello_job) hello_run store_up)
                hello_job = Ok (true, None)) by (vm_compute; reflexivity).
  split; [exact H|].
  exact (proj1 (validate_job_accepts_only_runnable_jobs
                  (demo_env (PDict hello_job) hello_run store_up) hello_job H)).
Defined.

Lemma malformed_message_is_discarded_witness :
  let env := with_deletes connection_lost
               (with_garbled_bodies (demo_env (PDict hello_job) hello_run store_up)) in
  json_loads env (Body sample_message) = None /\
  fst (process_message env sample_message initial_world)
    = Raise (OtherException (lit "Could not connect to the endpoint URL")) /\
  trace (snd (process_message env sample_message initial_world))
    = [EvDelete (lit "receipt-1")].
Proof.
  cbv zeta. split; [reflexivity|].
  destruct (malformed_message_is_discarded
              (with_deletes connection_lost
                 (with_garbled_bodies (demo_env (PDict hello_job) hello_run store_up)))
              sample_message initial_world eq_refl)
    as (Hres & Htrace & _).
  split; [exact Hres | exact Htrace].
Defined.

Lemma non_object_json_is_left_on_the_queue_witness :
  json_loads (demo_env (PList []) hello_run store_up) (Body sample_message)
    = Some (PList []) /\
  (forall d, PList [] <> PDict d) /\
  process_message (demo_env (PList []) hello_run store_up) sample_message
    initial_world = (Ok tt, initial_world).
Proof.
  assert (Hv : forall d, PList [] <> PDict d) by (intros d H; discriminate H).
  split; [reflexivity|]. split; [exact Hv|].
  exact (non_object_json_is_left_on_the_queue
           (demo_env (PList []) hello_run store_up) sample_message (PList [])
           initial_world eq_refl Hv).
Defined.

Lemma invalid_job_is_recorded_as_error_and_acknowledged_witness :
  json_loads (demo_env (PDict haskell_job) hello_run store_up)
    (Body sample_message) = Some (PDict haskell_job) /\
  validate_job (demo_env (PDict haskell_job) hello_run store_up) haskell_job
    = Ok (false, Some (lit "Unsupported language: haskell. Supported: ?")) /\
  runs (snd (process_message (demo_env (PDict haskell_job) hello_run store_up)
               sample_message initial_world)) = 0%nat.
Proof.
  assert (Hv : validate_job (demo_env (PDict haskell_job) hello_run store_up)
                 haskell_job
               = Ok (false, Some (lit "Unsupported language: haskell. Supported: ?")))
    by (vm_compute; reflexivity).
  split; [reflexivity|]. split; [exact Hv|].
  exact (proj1 (invalid_job_is_recorded_as_error_and_acknowledged
                  (demo_env (PDict haskell_job) hello_run store_up)
                  sample_message haskell_job _ initial_world eq_refl Hv)).
Defined.

Lemma process_message_changes_only_its_job_record_witness :
  (forall job,
     json_loads (demo_env (PDict hello_job) hello_run store_up)
       (Body sample_message) = Some (PDict job) ->
     dict_get job (lit "job_id") (PStr (lit "unknown")) <> PStr (lit "job-9")) /\
  table (snd (process_message (demo_env (PDict hello_job) hello_run store_up)
                sample_message initial_world)) !! lit "job-9" = None.
Proof.
  assert (Hother : forall job,
            json_loads (demo_env (PDict hello_job) hello_run store_up)
              (Body sample_message) = Some (PDict job) ->
            dict_get job (lit "job_id") (PStr (lit "unknown"))
              <> PStr (lit "job-9")).
  { intros job H. injection H as <-. vm_compute. intros H. discriminate H. }
  split; [exact Hother|].
  exact (process_message_changes_only_its_job_record
           (demo_env (PDict hello_job) hello_run store_up) sample_message
           initial_world (lit "job-9") Hother).
Defined.

Lemma accepted_job_always_gets_an_outcome_witness :
  validate_job (demo_env (PDict hello_job) TimedOut store_up) hello_job
    = Ok (true, None) /\
  exists language code out,
    hello_job !! lit "language" = Some language /\
    hello_job !! lit "code" = Some code /\
    fst (execute_code (demo_env (PDict hello_job) TimedOut store_up)
           language code
           (dict_get hello_job (lit "timeout") (PInt MAX_EXECUTION_TIME))
           initial_world) = Ok out.
Proof.
  assert (H : validate_job (demo_env (PDict hello_job) TimedOut store_up)
                hello_job = Ok (true, None)) by (vm_compute; reflexivity).
  split; [exact H|].
  destruct (accepted_job_always_gets_an_outcome
              (demo_env (PDict hello_job) TimedOut store_up) hello_job
              initial_world H)
    as (language & code & out & Hl & Hc & Hout & _).
  exists language, code, out. split; [exact Hl|]. split; [exact Hc | exact Hout].
Defined.

Lemma valid_job_is_run_recorded_and_acknowledged_witness :
  json_loads (demo_env (PDict hello_job) hello_run store_up)
    (Body sample_message) = Some (PDict hello_job) /\
  validate_job (demo_env (PDict hello_job) hello_run store_up) hello_job
    = Ok (true, None) /\
  hello_job !! lit "job_id" = Some (PStr (lit "job-1")) /\
  put_item (demo_env (PDict hello_job) hello_run store_up) (puts initial_world)
    = PutOk /\
  exists item,
    table (snd (process_message (demo_env (PDict hello_job) hello_run store_up)
                  sample_message initial_world))
      = <[lit "job-1" := item]> (table initial_world) /\
    i_job_id item = PStr (lit "job-1").
Proof.
  assert (Hv : validate_job (demo_env (PDict hello_job) hello_run store_up)
                 hello_job = Ok (true, None)) by (vm_compute; reflexivity).
  assert (Hk : hello_job !! lit "job_id" = Some (PStr (lit "job-1")))
    by (vm_compute; reflexivity).
  split; [reflexivity|]. split; [exact Hv|]. split; [exact Hk|].
  split; [reflexivity|].
  destruct (valid_job_is_run_recorded_and_acknowledged
              (demo_env (PDict hello_job) hello_run store_up) sample_message
              hello_job (lit "job-1") initial_world eq_refl Hv Hk eq_refl)
    as (language & code & out & item & cmd & input
        & _ & _ & _ & _ & Htable & Hid & _).
  exists item. split; [exact Htable | exact Hid].
Defined.

Lemma execute_code_isolates_every_run_witness :
  assoc (lit "go") LANGUAGE_IMAGES = Some (lit "golang:1.21-alpine") /\
  exists interpreter input,
    trace (snd (execute_code (demo_env (PDict hello_job) hello_run store_up)
                  (PStr (lit "go")) (PStr (lit "package main")) (PInt 5)
                  initial_world))
      = trace initial_world
        ++ [EvRun (map PStr [ lit "docker"; lit "run"; lit "--rm";
                              lit "--interactive"; lit "--network"; lit "none";
                              lit "--cpus"; lit "0.5"; lit "--memory"; lit "256m";
                              lit "--pids-limit"; lit "50"; lit "--read-only";
                              lit "--cap-drop"; lit "ALL"; lit "--security-opt";
                              lit "no-new-privileges" ]
                   ++ [PStr (lit "golang:1.21-alpine")] ++ interpreter)
              input (PInt 5)].
Proof.
  split; [reflexivity|].
  destruct (execute_code_isolates_every_run
              (demo_env (PDict hello_job) hello_run store_up)
              (lit "go") (lit "golang:1.21-alpine") (PStr (lit "package main"))
              (PInt 5) initial_world eq_refl)
    as (interpreter & input & Htrace & _).
  exists interpreter, input. exact Htrace.
Defined.

Lemma five_failed_polls_stop_the_worker_witness :
  length (replicate 5 (@RecvClientError Message)) = 5%nat /\
  forallb is_failed_poll (replicate 5 RecvClientError) = true /\
  (forall i, (i < 5)%nat ->
     is_set (demo_env (PDict hello_job) hello_run store_up)
       (flag_reads initial_world + i) = false) /\
  exists w',
    poll_queue (demo_env (PDict hello_job) hello_run store_up)
      (replicate 5 RecvClientError ++ [RecvMessages [sample_message]])
      initial_world = (Ok (TooManyErrors, 5), w').
Proof.
  split; [reflexivity|]. split; [reflexivity|].
  split; [intros i _; reflexivity|].
  destruct (five_failed_polls_stop_the_worker
              (demo_env (PDict hello_job) hello_run store_up)
              (replicate 5 RecvClientError) [RecvMessages [sample_message]]
              initial_world eq_refl eq_refl (fun _ _ => eq_refl))
    as (w' & Hloop & _).
  exists w'. exact Hloop.
Defined.


Lemma interrupted_batch_leaves_the_rest_untouched_witness :
  (forall i, (i < length [sample_message])%nat ->
     is_set (with_shutdown_at 1 (demo_env (PDict hello_job) hello_run store_up))
       (flag_reads initial_world + i) = false) /\
  is_set (with_shutdown_at 1 (demo_env (PDict hello_job) hello_run store_up))
    (flag_reads initial_world + length [sample_message]) = true /\
  process_batch (with_shutdown_at 1 (demo_env (PDict hello_job) hello_run store_up))
    ([sample_message] ++ sample_message :: [sample_message]) initial_world
  = (Ok tt,
     flag_read
       (snd (process_batch
               (with_shutdown_at 1 (demo_env (PDict hello_job) hello_run store_up))
               [sample_message] initial_world))).
Proof.
  assert (Hfalse : forall i, (i < length [sample_message])%nat ->
            is_set (with_shutdown_at 1
                      (demo_env (PDict hello_job) hello_run store_up))
              (flag_reads initial_world + i) = false).
  { intros i Hi. destruct i as [|i]; [reflexivity|]. cbn in Hi. lia. }
  split; [exact Hfalse|]. split; [reflexivity|].
  exact (interrupted_batch_leaves_the_rest_untouched
           (with_shutdown_at 1 (demo_env (PDict hello_job) hello_run store_up))
           [sample_message] sample_message [sample_message] initial_world
           Hfalse eq_refl).
Defined.

Lemma submitted_job_passes_worker_validation_witness :
  Producer.validate_request
    (demo_producer (PDict hello_request) store_up broker_up)
    (PDict hello_request) = Ok (true, []) /\
  exists job w',
    Producer.create_job (demo_producer (PDict hello_request) store_up broker_up)
      (PDict hello_request) producer_start = (Ok job, w') /\
    validate_job (demo_env (PDict hello_job) hello_run store_up) job
      = Ok (true, None).
Proof.
  assert (H : Producer.validate_request
                (demo_producer (PDict hello_request) store_up broker_up)
                (PDict hello_request) = Ok (true, []))
    by (vm_compute; reflexivity).
  split; [exact H|].
  destruct (submitted_job_passes_worker_validation
              (demo_producer (PDict hello_request) store_up broker_up)
              (demo_env (PDict hello_job) hello_run store_up)
              (PDict hello_request) producer_start H)
    as (job & w' & Hjob & Hvalid & _).
  exists job, w'. split; [exact Hjob | exact Hvalid].
Defined.

Lemma lambda_handler_records_then_enqueues_witness :
  Producer.request_body (demo_producer (PDict hello_request) store_up broker_up)
    hello_event = Ok (PDict hello_request) /\
  Producer.validate_request
    (demo_producer (PDict hello_request) store_up broker_up)
    (PDict hello_request) = Ok (true, []) /\
  fst (Producer.lambda_handler
         (demo_producer (PDict hello_request) store_up broker_up)
         hello_event producer_start)
    = Ok (Producer.accepted_response
            (demo_producer (PDict hello_request) store_up broker_up)
            (Producer.uuid4
               (demo_producer (PDict hello_request) store_up broker_up)
               (Producer.ids producer_start))).
Proof.
  assert (Hb : Producer.request_body
                 (demo_producer (PDict hello_request) store_up broker_up)
                 hello_event = Ok (PDict hello_request))
    by (vm_compute; reflexivity).
  assert (Hv : Producer.validate_request
                 (demo_producer (PDict hello_request) store_up broker_up)
                 (PDict hello_request) = Ok (true, []))
    by (vm_compute; reflexivity).
  split; [exact Hb|]. split; [exact Hv|].
  exact (proj1 (proj2 (lambda_handler_records_then_enqueues
                         (demo_producer (PDict hello_request) store_up broker_up)
                         (demo_env (PDict hello_job) hello_run store_up)
                         hello_event (PDict hello_request) producer_start
                         Hb Hv))).
Defined.
